(** * Foreman rule management (gui/plugins/foreman.py)

    A shallow embedding of the request handlers that author and remove
    foreman rules, together with the rule-matching and dispatch engine that
    consumes the stored rules.

    Conventions:
    - Python exceptions are values of [Exn]; a computation that may raise
      returns [result A];
    - an object mutated in place (the rule under construction, the AFF4
      foreman object) is threaded through the state monad [M];
    - [request.REQ] is a finite map from parameter names to string values. *)

From Stdlib Require Import ZArith Ascii.
From stdpp Require Import gmap strings list pretty sorting.

Local Open Scope string_scope.
Local Open Scope list_scope.
Local Open Scope Z_scope.

(** ** Exceptions and the state-and-error monad *)

Inductive Exn : Type :=
  | KeyError (key : string)
  | ValueError (msg : string)
  | RuntimeError (msg : string).

Definition result (A : Type) : Type := Exn + A.

Definition M (S A : Type) : Type := S → S * result A.

#[global] Instance M_ret {S} : MRet (M S) := λ A a s, (s, inr a).

#[global] Instance M_bind {S} : MBind (M S) := λ A B k m s,
  match m s with
  | (s', inr a) => k a s'
  | (s', inl e) => (s', inl e)
  end.

Definition raise {S A} (e : Exn) : M S A := λ s, (s, inl e).

Definition lift {S A} (r : result A) : M S A := λ s, (s, r).

Definition modify {S} (f : S → S) : M S unit := λ s, (f s, inr tt).

(** [try: m except KeyError: pass] *)
Definition except_KeyError_pass {S} (m : M S unit) : M S unit :=
  λ s, match m s with
       | (s', inl (KeyError _)) => (s', inr tt)
       | r => r
       end.

(** [for x in xs: body x] *)
Fixpoint for_each {S A} (xs : list A) (body : A → M S unit) : M S unit :=
  match xs with
  | [] => mret tt
  | x :: xs' => body x ;; for_each xs' body
  end.

#[global] Instance result_ret : MRet result := λ A a, inr a.

#[global] Instance result_bind : MBind result := λ A B k r,
  match r with
  | inr a => k a
  | inl e => inl e
  end.

(** [range(n)] *)
Definition range (n : nat) : list nat := seq 0 n.

(** ** Python's [int(s)] on a decimal string

    Surrounding whitespace is stripped, one optional sign is accepted and at
    least one digit is required; anything else raises [ValueError]. *)

Definition is_space (c : ascii) : bool :=
  bool_decide (c ∈ [" "; "009"; "010"; "011"; "012"; "013"]%char).

Fixpoint lstrip (s : string) : string :=
  match s with
  | String c s' => if is_space c then lstrip s' else s
  | EmptyString => EmptyString
  end.

Definition strip (s : string) : string :=
  String.rev (lstrip (String.rev (lstrip s))).

Definition digit_of (c : ascii) : option Z :=
  let n := Z.of_nat (nat_of_ascii c) in
  if bool_decide (48 ≤ n ≤ 57) then Some (n - 48) else None.

Fixpoint digits_go (acc : Z) (s : string) : option Z :=
  match s with
  | EmptyString => Some acc
  | String c s' =>
      match digit_of c with
      | Some d => digits_go (10 * acc + d) s'
      | None => None
      end
  end.

Definition digits (s : string) : option Z :=
  match s with
  | EmptyString => None
  | _ => digits_go 0 s
  end.

Definition py_int (s : string) : result Z :=
  let bad := inl (ValueError ("invalid literal for int() with base 10: " +:+ s)) in
  match strip s with
  | String "-" s' => from_option (λ n, inr (- n)) bad (digits s')
  | String "+" s' => from_option inr bad (digits s')
  | s' => from_option inr bad (digits s')
  end.

(** ** Requests *)

Record Request : Type := mkRequest {
  REQ : gmap string string;
  token : string
}.

(** [request.REQ[key]] *)
Definition REQ_getitem (request : Request) (key : string) : result string :=
  match REQ request !! key with
  | Some v => inr v
  | None => inl (KeyError key)
  end.

(** [request.REQ.get(key)] *)
Definition REQ_get (request : Request) (key : string) : option string :=
  REQ request !! key.

(** ["<prefix>%s" % i] for a loop index [i] *)
Definition fmt_index (prefix : string) (i : nat) : string :=
  prefix +:+ pretty i.

(** ** The rule protobufs (jobs_pb2) *)

Record ForemanAttributeRegex : Type := mkRegex {
  path : string;
  attribute_name : string;
  attribute_regex : string
}.

Record ForemanRuleAction (Argv : Type) : Type := mkAction {
  flow_name : string;
  argv : Argv
}.
Arguments mkAction {Argv} _ _.
Arguments flow_name {Argv} _.
Arguments argv {Argv} _.

Record ForemanRule (Argv : Type) : Type := mkRule {
  description : string;
  created : Z;
  expires : Z;
  regex_rules : list ForemanAttributeRegex;
  actions : list (ForemanRuleAction Argv)
}.
Arguments mkRule {Argv} _ _ _ _ _.
Arguments description {Argv} _.
Arguments created {Argv} _.
Arguments expires {Argv} _.
Arguments regex_rules {Argv} _.
Arguments actions {Argv} _.

(** [foreman_rule.regex_rules.add(...)] *)
Definition add_regex_rule {Argv} (c : ForemanAttributeRegex)
    (r : ForemanRule Argv) : ForemanRule Argv :=
  mkRule (description r) (created r) (expires r)
         (regex_rules r ++ [c]) (actions r).

(** [foreman_rule.actions.add(...)] *)
Definition add_action {Argv} (a : ForemanRuleAction Argv)
    (r : ForemanRule Argv) : ForemanRule Argv :=
  mkRule (description r) (created r) (expires r)
         (regex_rules r) (actions r ++ [a]).

(** ** The AFF4 object aff4:/foreman

    [RULES] is the attribute read by [fd.Get(fd.Schema.RULES)] ([None] when it
    was never set).  [journal] lists every value written by
    [fd.Set(fd.Schema.RULES, _); fd.Flush()], oldest first, so that a handler
    that writes nothing is told apart from one that writes back an equal
    value. *)

Record ForemanObject (Argv : Type) : Type := mkForeman {
  RULES : option (list (ForemanRule Argv));
  journal : list (list (ForemanRule Argv))
}.
Arguments mkForeman {Argv} _ _.
Arguments RULES {Argv} _.
Arguments journal {Argv} _.

(** [fd.Set(fd.Schema.RULES, rules); fd.Flush()] *)
Definition Set_RULES {Argv} (rules : list (ForemanRule Argv))
    (fd : ForemanObject Argv) : ForemanObject Argv :=
  mkForeman (Some rules) (journal fd ++ [rules]).

(** ** Rendered responses *)

Inductive Response (Argv : Type) : Type :=
  | CreatedRule (rule : ForemanRule Argv)
  | ErrorMessage (message : string)
  | RemovedRule (rule_id : Z)
  | ServerError (e : Exn).
Arguments CreatedRule {Argv} _.
Arguments ErrorMessage {Argv} _.
Arguments RemovedRule {Argv} _.
Arguments ServerError {Argv} _.

Definition is_error {Argv} (r : Response Argv) : bool :=
  match r with
  | ErrorMessage _ | ServerError _ => true
  | _ => false
  end.

(** [renderers.ErrorHandler()]: the decorated handler answers an exception
    with an error response instead of propagating it. *)
Definition ErrorHandler {Argv S} (f : S → S * result (Response Argv))
    : S → S * Response Argv :=
  λ s, match f s with
       | (s', inr r) => (s', r)
       | (s', inl e) => (s', ServerError e)
       end.

(** ** Collaborators of the handlers that live outside this file

    [classes] is the registry [flow.GRRFlow.classes]; [GetArgs] and
    [BuildArgs] are inherited from [flow_management.FlowFormAction];
    [ProtoDict_ToProto] is [utils.ProtoDict(args).ToProto()];
    [ParseFromHumanReadable] is
    [long(aff4.RDFDatetime.ParseFromHumanReadable(text))], in microseconds.
    Each of them may raise. *)

Record Framework (Argv : Type) : Type := mkFramework {
  FlowClass : Type;
  ArgList : Type;
  Args : Type;
  classes : gmap string FlowClass;
  GetArgs : FlowClass → Request → string → result ArgList;
  BuildArgs : ArgList → result Args;
  ProtoDict_ToProto : Args → result Argv;
  ParseFromHumanReadable : string → result Z
}.
Arguments FlowClass {Argv} _.
Arguments ArgList {Argv} _.
Arguments Args {Argv} _.
Arguments classes {Argv} _.
Arguments GetArgs {Argv} _ _ _ _.
Arguments BuildArgs {Argv} _ _.
Arguments ProtoDict_ToProto {Argv} _ _.
Arguments ParseFromHumanReadable {Argv} _ _.

(** [flow.GRRFlow.classes[flow_name]] *)
Definition classes_getitem {Argv} (F : Framework Argv) (name : string)
    : result (FlowClass F) :=
  match classes F !! name with
  | Some cls => inr cls
  | None => inl (KeyError name)
  end.

(** Python truthiness of [request.REQ.get(key)]: [None] and the empty
    string are false. *)
Definition truthy (v : option string) : option string :=
  match v with
  | Some s => if bool_decide (s = "") then None else Some s
  | None => None
  end.

(** ** AddForemanRuleAction *)

Definition ParseRegexRules {Argv} (request : Request)
    : M (ForemanRule Argv) unit :=
  for_each (range 100) (λ i,
    except_KeyError_pass (
      path ← lift (REQ_getitem request (fmt_index "path_" i));
      attribute_name ←
        lift (REQ_getitem request (fmt_index "attribute_name_" i));
      attribute_regex ←
        lift (REQ_getitem request (fmt_index "attribute_regex_" i));
      modify (add_regex_rule (mkRegex path attribute_name attribute_regex)))).

Definition ParseActionRules {Argv} (F : Framework Argv) (request : Request)
    : M (ForemanRule Argv) unit :=
  for_each (range 100) (λ i,
    match truthy (REQ_get request (fmt_index "flow_name_" i)) with
    | None => mret tt
    | Some flow_name =>
        flow_class ← lift (classes_getitem F flow_name);
        arg_list ← lift (GetArgs F flow_class request (fmt_index "v_%s_" i));
        args ← lift (BuildArgs F arg_list);
        argv ← lift (ProtoDict_ToProto F args);
        modify (add_action (mkAction flow_name argv))
    end).

Definition AddRuleToForeman {Argv} (foreman_rule : ForemanRule Argv)
    (fd : ForemanObject Argv) : ForemanObject Argv :=
  let rules := RULES fd in
  let rules := match rules with None => [] | Some rules => rules end in
  let rules := rules ++ [foreman_rule] in
  Set_RULES rules fd.

(** The body of [AddForemanRuleAction.Layout]; [now] is the clock read by
    [long(aff4.RDFDatetime())]. *)
Definition AddForemanRuleAction_Layout_body {Argv} (F : Framework Argv)
    (now : Z) (request : Request)
    : M (ForemanObject Argv) (Response Argv) := λ fd,
  match REQ_getitem request "expires_text" ≫= ParseFromHumanReadable F with
  | inl e => (fd, inl e)
  | inr expire_date =>
      let foreman_rule :=
        mkRule (default "" (REQ_get request "description"))
               now expire_date [] [] in
      if bool_decide (expires foreman_rule < created foreman_rule)
      then (fd, inr (ErrorMessage "Rule already expired?"))
      else
        match (ParseRegexRules request ;; ParseActionRules F request)
                foreman_rule with
        | (_, inl e) => (fd, inl e)
        | (foreman_rule, inr _) =>
            (AddRuleToForeman foreman_rule fd, inr (CreatedRule foreman_rule))
        end
  end.

Definition AddForemanRuleAction_Layout {Argv} (F : Framework Argv)
    (now : Z) (request : Request)
    : ForemanObject Argv → ForemanObject Argv * Response Argv :=
  ErrorHandler (AddForemanRuleAction_Layout_body F now request).

(** ** DeleteRule *)

(** [enumerate(rules)], counting from [i] *)
Fixpoint enumerate_from {A} (i : Z) (l : list A) : list (Z * A) :=
  match l with
  | [] => []
  | x :: l' => (i, x) :: enumerate_from (i + 1) l'
  end.

Definition enumerate {A} (l : list A) : list (Z * A) := enumerate_from 0 l.

(** [int(request.REQ.get("rule_id", -1))] *)
Definition request_rule_id (request : Request) : result Z :=
  match REQ_get request "rule_id" with
  | Some s => py_int s
  | None => inr (-1)
  end.

(** [DeleteRule.Layout]; the guard [0 ≤ rule_id] is the source's
    [self.rule_id >= 0], and [Some rules] its [rules is not None]. *)
Definition DeleteRule_Layout {Argv} (request : Request)
    : M (ForemanObject Argv) (Response Argv) := λ fd,
  match request_rule_id request with
  | inl e => (fd, inl e)
  | inr rule_id =>
      let rules := RULES fd in
      let new_rules := [] in
      let fd :=
        match bool_decide (0 ≤ rule_id), rules with
        | true, Some rules =>
            let new_rules :=
              foldl (λ new_rules '(i, rule),
                       if bool_decide (i = rule_id) then new_rules
                       else new_rules ++ [rule])
                    new_rules (enumerate rules) in
            Set_RULES new_rules fd
        | _, _ => fd
        end in
      (fd, inr (RemovedRule rule_id))
  end.

(** ** The Foreman engine

    The engine that evaluates the stored rules against a client is not part
    of gui/plugins/foreman.py; it is modelled from its specification.  A rule
    is the protobuf above: its conditions are [regex_rules] (the pattern is
    [attribute_regex]) and an action names its task in [flow_name] and
    carries its arguments in [argv]. *)

(** Modelled from the spec: the external collaborators of the engine, which
    the source file does not contain.  [StartTask] is the task-execution
    capability [StartTask(client_id, task_name, arguments)], acting on the
    state [World] of the task engine and returning a handle, or [None] for
    an error; [regex_search] applies a pattern as an unanchored search and
    returns [None] for a pattern that does not compile. *)
Record Capabilities (Argv : Type) : Type := mkCapabilities {
  World : Type;
  TaskHandle : Type;
  StartTask : string → string → Argv → World → World * option TaskHandle;
  regex_search : string → string → option bool
}.
Arguments World {Argv} _.
Arguments TaskHandle {Argv} _.
Arguments StartTask {Argv} _ _ _ _ _.
Arguments regex_search {Argv} _ _ _.

(** Modelled from the spec: a single condition of the Condition Evaluator,
    which is missing from the source.  The condition fails when the named
    attribute is absent from the snapshot or when the pattern is malformed. *)
Definition condition_matches {Argv} (C : Capabilities Argv)
    (snapshot : gmap string string) (c : ForemanAttributeRegex) : bool :=
  match snapshot !! attribute_name c with
  | None => false
  | Some value => default false (regex_search C (attribute_regex c) value)
  end.

(** Modelled from the spec: [Matches(rule, snapshot)] of the Condition
    Evaluator, missing from the source: the conjunction of the rule's
    conditions. *)
Definition Matches {Argv} (C : Capabilities Argv) (rule : ForemanRule Argv)
    (snapshot : gmap string string) : bool :=
  forallb (condition_matches C snapshot) (regex_rules rule).

(** Modelled from the spec: [ShouldFire] of the Dispatch Ledger, missing
    from the source.  The ledger maps a client to its watermark; a client
    without a record has seen no rule. *)
Definition ShouldFire {Argv} (ledger : gmap string Z) (client_id : string)
    (rule : ForemanRule Argv) : bool :=
  match ledger !! client_id with
  | None => true
  | Some watermark => bool_decide (watermark < created rule)
  end.

(** Modelled from the spec: advancing a client's watermark to
    [max(current watermark, t)] in the Dispatch Ledger, missing from the
    source. *)
Definition advance (ledger : gmap string Z) (client_id : string) (t : Z)
    : gmap string Z :=
  <[client_id := match ledger !! client_id with
                 | None => t
                 | Some watermark => Z.max watermark t
                 end]> ledger.

(** Modelled from the spec: [RecordFired] of the Dispatch Ledger, missing
    from the source. *)
Definition RecordFired {Argv} (ledger : gmap string Z) (client_id : string)
    (rule : ForemanRule Argv) : gmap string Z :=
  advance ledger client_id (created rule).

(** Modelled from the spec: [Dispatch] of the Action Dispatcher, missing from
    the source.  Every action is attempted, in order; the outcome of each
    attempt is returned. *)
Fixpoint Dispatch {Argv} (C : Capabilities Argv) (client_id : string)
    (acts : list (ForemanRuleAction Argv)) (w : World C)
    : World C * list (option (TaskHandle C)) :=
  match acts with
  | [] => (w, [])
  | a :: acts' =>
      let '(w, h) := StartTask C client_id (flow_name a) (argv a) w in
      let '(w, hs) := Dispatch C client_id acts' w in
      (w, h :: hs)
  end.

(** Modelled from the spec: the RuleSet Store as the engine reads it, missing
    from the source.  [Load] fails when the backing store is unreachable. *)
Record RuleSetStore (Argv : Type) : Type := mkStore {
  stored : list (ForemanRule Argv);
  reachable : bool
}.
Arguments mkStore {Argv} _ _.
Arguments stored {Argv} _.
Arguments reachable {Argv} _.

Inductive StorageUnavailable : Type := storage_unavailable.

(** Modelled from the spec: [Load] of the RuleSet Store, missing from the
    source. *)
Definition Load {Argv} (store : RuleSetStore Argv)
    : StorageUnavailable + list (ForemanRule Argv) :=
  if reachable store then inr (stored store) else inl storage_unavailable.

(** One invocation of the Action Dispatcher on a rule, with the outcome of
    every task start. *)
Record Firing {Argv} (C : Capabilities Argv) : Type := mkFiring {
  fired_rule : ForemanRule Argv;
  outcomes : list (option (TaskHandle C))
}.
Arguments mkFiring {Argv C} _ _.
Arguments fired_rule {Argv C} _.
Arguments outcomes {Argv C} _.

Definition fully_fired {Argv} {C : Capabilities Argv} (f : Firing C) : bool :=
  forallb (λ h, bool_decide (is_Some h)) (outcomes f).

Record EngineState {Argv} (C : Capabilities Argv) : Type := mkEngine {
  ledger : gmap string Z;
  world : World C;
  firings : list (Firing C)
}.
Arguments mkEngine {Argv C} _ _ _.
Arguments ledger {Argv C} _.
Arguments world {Argv C} _.
Arguments firings {Argv C} _.

(** Modelled from the spec: step 4 of [Evaluate] for one rule, missing from
    the source: a matching rule that should fire is dispatched, and recorded
    as fired only when every task started. *)
Definition evaluate_rule {Argv} (C : Capabilities Argv) (client_id : string)
    (snapshot : gmap string string) (st : EngineState C)
    (rule : ForemanRule Argv) : EngineState C :=
  if Matches C rule snapshot && ShouldFire (ledger st) client_id rule then
    let '(w, hs) := Dispatch C client_id (actions rule) (world st) in
    let f := mkFiring rule hs in
    mkEngine (if fully_fired f then RecordFired (ledger st) client_id rule
              else ledger st)
             w (firings st ++ [f])
  else st.

Definition max_created {Argv} (rules : list (ForemanRule Argv)) : option Z :=
  foldr (λ r m, Some (from_option (Z.max (created r)) (created r) m))
        None rules.

(** Ascending order of creation time. *)
Definition by_created {Argv} (a b : ForemanRule Argv) : Prop :=
  created a ≤ created b.

#[global] Instance by_created_dec {Argv} : RelDecision (@by_created Argv) :=
  λ a b, decide (created a ≤ created b).

Record PassResult {Argv} (C : Capabilities Argv) : Type := mkPass {
  considered : list (ForemanRule Argv);
  after : EngineState C
}.
Arguments mkPass {Argv C} _ _.
Arguments considered {Argv C} _.
Arguments after {Argv C} _.

(** Modelled from the spec: [Evaluate(client_id, snapshot)] of the Foreman
    Engine at time [now], missing from the source.  [considered] lists the
    rules handed to the Condition Evaluator; the firings of the pass are
    those of the resulting state. *)
Definition Evaluate {Argv} (C : Capabilities Argv)
    (store : RuleSetStore Argv) (client_id : string)
    (snapshot : gmap string string) (now : Z)
    (ledger0 : gmap string Z) (w0 : World C) : PassResult C :=
  match Load store with
  | inl _ => mkPass [] (mkEngine ledger0 w0 [])
  | inr rules =>
      let active := filter (λ r, now < expires r) rules in
      let fresh := filter (λ r, ShouldFire ledger0 client_id r) active in
      let ordered := merge_sort by_created fresh in
      let st := foldl (evaluate_rule C client_id snapshot)
                      (mkEngine ledger0 w0 []) ordered in
      let ledger5 :=
        match max_created fresh with
        | None => ledger st
        | Some t => advance (ledger st) client_id t
        end in
      mkPass ordered (mkEngine ledger5 (world st) (firings st))
  end.

(** A trigger of the engine: which client checks in, with which snapshot,
    when, and against which contents of the store. *)
Record Trigger (Argv : Type) : Type := mkTrigger {
  trigger_store : RuleSetStore Argv;
  trigger_client : string;
  trigger_snapshot : gmap string string;
  trigger_now : Z
}.
Arguments mkTrigger {Argv} _ _ _ _.
Arguments trigger_store {Argv} _.
Arguments trigger_client {Argv} _.
Arguments trigger_snapshot {Argv} _.
Arguments trigger_now {Argv} _.

Definition run_pass {Argv} (C : Capabilities Argv) (t : Trigger Argv)
    (ledger0 : gmap string Z) (w0 : World C) : PassResult C :=
  Evaluate C (trigger_store t) (trigger_client t) (trigger_snapshot t)
           (trigger_now t) ledger0 w0.

(** The ledger and the task engine after a sequence of passes. *)
Definition run_passes {Argv} (C : Capabilities Argv) (ts : list (Trigger Argv))
    (ledger0 : gmap string Z) (w0 : World C) : gmap string Z * World C :=
  foldl (λ '(l, w) t, let r := run_pass C t l w in
                      (ledger (after r), world (after r)))
        (ledger0, w0) ts.

(** ** What one form index contributes

    The per-index reading of the two parsers: the condition, respectively the
    action, that form index [i] stands for. *)

Definition condition_at (request : Request) (i : nat)
    : option ForemanAttributeRegex :=
  match REQ request !! fmt_index "path_" i,
        REQ request !! fmt_index "attribute_name_" i,
        REQ request !! fmt_index "attribute_regex_" i with
  | Some p, Some n, Some r => Some (mkRegex p n r)
  | _, _, _ => None
  end.

Inductive Parsed (A : Type) : Type :=
  | Skip
  | Add (a : A)
  | Raise (e : Exn).
Arguments Skip {A}.
Arguments Add {A} _.
Arguments Raise {A} _.

(** The arguments built for the flow [name] from the parameters of index
    [i]. *)
Definition argv_at {Argv} (F : Framework Argv) (request : Request)
    (name : string) (i : nat) : result Argv :=
  flow_class ← classes_getitem F name;
  arg_list ← GetArgs F flow_class request (fmt_index "v_%s_" i);
  args ← BuildArgs F arg_list;
  ProtoDict_ToProto F args.

Definition action_at {Argv} (F : Framework Argv) (request : Request)
    (i : nat) : Parsed (ForemanRuleAction Argv) :=
  match REQ request !! fmt_index "flow_name_" i with
  | None => Skip
  | Some name =>
      if bool_decide (name = "") then Skip
      else match argv_at F request name i with
           | inr v => Add (mkAction name v)
           | inl e => Raise e
           end
  end.

Definition added_at {Argv} (F : Framework Argv) (request : Request)
    (i : nat) : option (ForemanRuleAction Argv) :=
  match action_at F request i with
  | Add a => Some a
  | _ => None
  end.

(** ** A concrete framework and concrete capabilities

    Used to run the handlers and the engine on explicit inputs. *)

(** ["v_%s_3" % name] *)
Fixpoint fmt_name (template name : string) : string :=
  match template with
  | String "%" (String "s" rest) => name +:+ rest
  | String c rest => String c (fmt_name rest name)
  | EmptyString => EmptyString
  end.

(** A flow class is given by the names of its arguments; an argument is read
    from the request parameter named by the template and is required. *)
Definition demo_GetArgs (cls : list string) (request : Request)
    (template : string) : result (list (string * option string)) :=
  inr ((λ name, (name, REQ_get request (fmt_name template name))) <$> cls).

Definition demo_BuildArgs (arg_list : list (string * option string))
    : result (list (string * string)) :=
  mapM (M := result)
       (λ '(name, v), match v with
                      | Some s => inr (name, s)
                      | None => inl (RuntimeError name)
                      end) arg_list.

Definition demo_framework : Framework (list (string * string)) :=
  {| FlowClass := list string;
     ArgList := list (string * option string);
     Args := list (string * string);
     classes := {[ "ListDirectory" := ["path"]; "Interrogate" := [] ]};
     GetArgs := demo_GetArgs;
     BuildArgs := demo_BuildArgs;
     ProtoDict_ToProto := inr;
     ParseFromHumanReadable := λ s,
       if bool_decide (s = "2012-01-01") then inr 1325376000000000
       else if bool_decide (s = "2012-01-02") then inr 1325462400000000
       else inl (ValueError s) |}.

Fixpoint contains (p s : string) : bool :=
  String.prefix p s ||
  match s with
  | String _ s' => contains p s'
  | EmptyString => false
  end.

(** Patterns are literal texts, optionally anchored by a leading [^]; the
    world of the task engine is the list of tasks started so far, and a task
    named ["Broken"] cannot be started. *)
Definition demo_capabilities : Capabilities (list (string * string)) :=
  {| World := list (string * string);
     TaskHandle := nat;
     StartTask := λ client_id task_name _ w,
       if bool_decide (task_name = "Broken") then (w, None)
       else (w ++ [(client_id, task_name)], Some (length w));
     regex_search := λ pattern value,
       match pattern with
       | String "^" p => Some (String.prefix p value)
       | String "(" _ => None
       | p => Some (contains p value)
       end |}.

(** ** The form renderers: AddForemanRule and RenderFlowForm

    These handlers index Python sequences and read local variables, so they
    can raise two exceptions more than the handlers above. *)

Inductive PyExn : Type :=
  | Std (e : Exn)
  | IndexError
  | UnboundLocalError (name : string).

Definition pyresult (A : Type) : Type := PyExn + A.

#[global] Instance pyresult_ret : MRet pyresult := λ A a, inr a.

#[global] Instance pyresult_bind : MBind pyresult := λ A B k r,
  match r with
  | inr a => k a
  | inl e => inl e
  end.

#[global] Instance pyresult_fmap : FMap pyresult := λ A B f r,
  match r with
  | inr a => inr (f a)
  | inl e => inl e
  end.

Definition std {A} (r : result A) : pyresult A :=
  match r with
  | inr a => inr a
  | inl e => inl (Std e)
  end.

(** [try: m except IndexError: handler] *)
Definition except_IndexError {A} (m handler : pyresult A) : pyresult A :=
  match m with
  | inl IndexError => handler
  | r => r
  end.

(** [seq[i]] on a Python sequence ([rules[rule_id]], [rule.actions[n]]): a
    negative index counts from the end, an index out of range raises
    [IndexError]. *)
Definition list_getitem {A} (l : list A) (i : Z) : pyresult A :=
  let n := Z.of_nat (length l) in
  let j := if bool_decide (i < 0) then i + n else i in
  if bool_decide (0 ≤ j < n) then
    match l !! Z.to_nat j with
    | Some x => inr x
    | None => inl IndexError
    end
  else inl IndexError.

(** ["<prefix>%s" % i] for a Python integer [i] *)
Definition fmt_int (prefix : string) (i : Z) : string :=
  prefix +:+ pretty i.

(** The values held by the defaults dictionary. *)
Inductive PyValue : Type :=
  | VInt (n : Z)
  | VStr (s : string).

(** [d[key]] on a dictionary *)
Definition dict_getitem {V} (d : gmap string V) (key : string) : pyresult V :=
  match d !! key with
  | Some v => inr v
  | None => inl (Std (KeyError key))
  end.

(** [regex_rule.ListFields()]: the fields of the message by name, in field
    order; the three fields are set on every stored condition. *)
Definition ListFields (c : ForemanAttributeRegex) : list (string * string) :=
  [("path", path c); ("attribute_name", attribute_name c);
   ("attribute_regex", attribute_regex c)].

(** The two nested loops of [BuildDefaults] over [rule.regex_rules]. *)
Definition defaults_regex_rules (regex_rules : list ForemanAttributeRegex)
    (result : gmap string PyValue) : gmap string PyValue :=
  foldl (λ result '(i, regex_rule),
           foldl (λ result '(name, value),
                    let result :=
                      <[fmt_int (name +:+ "_") i := VStr value]> result in
                    <["rule_count" := VInt (i + 1)]> result)
                 result (ListFields regex_rule))
        result (enumerate regex_rules).

(** The loop of [BuildDefaults] over [rule.actions]. *)
Definition defaults_actions {Argv} (acts : list (ForemanRuleAction Argv))
    (result : gmap string PyValue) : gmap string PyValue :=
  foldl (λ result '(i, action_rule),
           <[fmt_int "flow_name_" i := VStr (flow_name action_rule)]> result)
        result (enumerate acts).

(** [AddForemanRule.BuildDefaults].  [clock_created] and [clock_expires] are
    the two values computed from [time.time()]: [int(time.time() * 1e6)] and
    [int(time.time() + 60 * 60 * 24) * 1e6], the latter a float of integral
    value, both in microseconds; [RDFDatetime_str] is
    [str(aff4.RDFDatetime(v))].  The fields of a condition are strings, on
    which [str(value)] is the identity. *)
Definition BuildDefaults {Argv} (RDFDatetime_str : PyValue → string)
    (clock_created clock_expires : Z) (request : Request)
    (fd : ForemanObject Argv) : pyresult (gmap string PyValue) :=
  let rule_id := REQ_get request "rule_id" in
  let result : gmap string PyValue :=
    list_to_map [("created", VInt clock_created);
                 ("expires", VInt clock_expires);
                 ("rule_count", VInt 1); ("action_count", VInt 1);
                 ("rule_id", VInt (-1))] in
  result ←
    match rule_id with
    | None => mret result
    | Some rule_id =>
        n ← std (py_int rule_id);
        let result := <["rule_id" := VInt n]> result in
        match RULES fd with
        | None => mret result
        | Some rules =>
            rule ← list_getitem rules n;
            let result :=
              <["description" := VStr (description rule)]>
                (<["expires" := VInt (expires rule)]>
                   (<["created" := VInt (created rule)]> result)) in
            let result := defaults_regex_rules (regex_rules rule) result in
            let result := defaults_actions (actions rule) result in
            mret (<["action_count" :=
                      VInt (Z.of_nat (length (actions rule)))]> result)
        end
    end;
  created_v ← dict_getitem result "created";
  let result := <["created_text" := VStr (RDFDatetime_str created_v)]> result in
  expires_v ← dict_getitem result "expires";
  mret (<["expires_text" := VStr (RDFDatetime_str expires_v)]> result).

(** What a form field filled from a default carries. *)
Definition form_value (v : PyValue) : string :=
  match v with
  | VStr s => s
  | VInt n => pretty n
  end.

(** The collaborators of [RenderFlowForm.Layout]: the flow registry,
    [GetArgs], whose result is a list of tuples
    [(desc, field, value, default)], and
    [utils.ProtoDict(action.argv).ToDict()]. *)
Record FormFramework (Argv V : Type) : Type := mkFormFramework {
  form_FlowClass : Type;
  form_classes : gmap string form_FlowClass;
  form_GetArgs :
    form_FlowClass → Request → string → pyresult (list (string * string * V * V));
  ProtoDict_ToDict : Argv → pyresult (gmap string V)
}.
Arguments form_FlowClass {Argv V} _.
Arguments form_classes {Argv V} _.
Arguments form_GetArgs {Argv V} _ _ _ _.
Arguments ProtoDict_ToDict {Argv V} _ _.

Definition form_classes_getitem {Argv V} (F : FormFramework Argv V)
    (name : string) : pyresult (form_FlowClass F) :=
  dict_getitem (form_classes F) name.

(** What [RenderFlowForm.Layout] hands to its template. *)
Record FlowForm (V : Type) : Type := mkFlowForm {
  form_name : string;
  form_rule_number : Z;
  form_fields : list (string * string * V * V)
}.
Arguments mkFlowForm {V} _ _ _.
Arguments form_name {V} _.
Arguments form_rule_number {V} _.
Arguments form_fields {V} _.

(** [int(request.REQ.get("action_id", 0))] *)
Definition request_action_id (request : Request) : result Z :=
  match REQ_get request "action_id" with
  | Some s => py_int s
  | None => inr 0
  end.

(** The loop that replaces the value of every argument by the stored one. *)
Definition stored_fields {V} (action_argv : gmap string V)
    (args : list (string * string * V * V))
    : pyresult (list (string * string * V * V)) :=
  mapM (M := pyresult)
       (λ '(desc, field, _, default_),
          v ← dict_getitem action_argv desc;
          mret (desc, field, v, default_)) args.

(** [RenderFlowForm.Layout].  The local [args] is [None] while no branch
    has assigned it; reading it then raises [UnboundLocalError]. *)
Definition RenderFlowForm_Layout {Argv V} (F : FormFramework Argv V)
    (request : Request) (fd : ForemanObject Argv) : pyresult (FlowForm V) :=
  let rule_id := REQ_get request "rule_id" in
  let requested_flow_name := default "ListDirectory" (REQ_get request "flow") in
  rule_number ← std (request_action_id request);
  let requested_args :=
    flow_class ← form_classes_getitem F requested_flow_name;
    form_GetArgs F flow_class request (fmt_int "v_%s_" rule_number) in
  args ←
    match rule_id with
    | None => mret None
    | Some rule_id =>
        rule_id ← std (py_int rule_id);
        match RULES fd with
        | Some rules =>
            Some <$> except_IndexError (
              rule ← list_getitem rules rule_id;
              action ← list_getitem (actions rule) rule_number;
              let flow_name := flow_name action in
              if bool_decide (flow_name = requested_flow_name) then
                action_argv ← ProtoDict_ToDict F (argv action);
                flow_class ← form_classes_getitem F flow_name;
                args ← form_GetArgs F flow_class request
                         (fmt_int "v_%s_" rule_number);
                stored_fields action_argv args
              else requested_args)
              (mret [])
        | None => Some <$> requested_args
        end
    end;
  match args with
  | None => inl (UnboundLocalError "args")
  | Some args => mret (mkFlowForm requested_flow_name rule_number args)
  end.

(** ** Sample data *)

Definition rule_A : ForemanRule (list (string * string)) :=
  mkRule "first" 100 200 [] [mkAction "TaskA" []].

Definition rule_B : ForemanRule (list (string * string)) :=
  mkRule "second" 110 300 [mkRegex "/" "os" "^Linux"]
         [mkAction "TaskB" [("path", "/tmp")]].

Definition rule_C : ForemanRule (list (string * string)) :=
  mkRule "third" 120 400 [] [].

Definition rule_broken : ForemanRule (list (string * string)) :=
  mkRule "fourth" 130 400 [] [mkAction "Broken" []; mkAction "TaskA" []].

Definition stored_three : ForemanObject (list (string * string)) :=
  mkForeman (Some [rule_A; rule_B; rule_C]) [].

Definition nothing_stored : ForemanObject (list (string * string)) :=
  mkForeman None [].

(** A request for a rule expiring on 2012-01-01, and the clock at that very
    microsecond. *)
Definition boundary_request : Request :=
  mkRequest {[ "expires_text" := "2012-01-01" ]} "admin".

Definition boundary_now : Z := 1325376000000000.

Definition boundary_rule : ForemanRule (list (string * string)) :=
  mkRule "" boundary_now boundary_now [] [].

Definition delete_request (rule_id : string) : Request :=
  mkRequest {[ "rule_id" := rule_id ]} "admin".

Definition empty_request : Request := mkRequest ∅ "admin".

(** A filled-in form: condition 0 is complete, condition 2 lacks its regex,
    condition 5 is complete; action 0 lists a directory, action 1 was left
    unselected (empty flow name), action 3 interrogates. *)
Definition form_request : Request :=
  mkRequest (list_to_map [
    ("expires_text", "2012-01-02"); ("description", "demo");
    ("path_0", "/"); ("attribute_name_0", "os");
    ("attribute_regex_0", "^Linux");
    ("path_2", "/"); ("attribute_name_2", "arch");
    ("path_5", "/fs"); ("attribute_name_5", "size");
    ("attribute_regex_5", "0");
    ("flow_name_0", "ListDirectory"); ("v_path_0", "/tmp");
    ("flow_name_1", "");
    ("flow_name_3", "Interrogate")]) "admin".

(** The same form with an unknown flow selected as action 2. *)
Definition bad_form_request : Request :=
  mkRequest (<["flow_name_2" := "NoSuchFlow"]> (REQ form_request)) "admin".

Definition blank_rule : ForemanRule (list (string * string)) :=
  mkRule "demo" 0 1 [] [].

Definition store_A : RuleSetStore (list (string * string)) :=
  mkStore [rule_A] true.

Definition first_checkin : Trigger (list (string * string)) :=
  mkTrigger store_A "C.1" ∅ 150.

Definition other_checkin : Trigger (list (string * string)) :=
  mkTrigger (mkStore [rule_A; rule_B] true) "C.2"
            {[ "os" := "Linux x86_64" ]} 155.

Definition second_checkin : Trigger (list (string * string)) :=
  mkTrigger (mkStore [rule_B; rule_A] true) "C.1"
            {[ "os" := "Linux x86_64" ]} 160.

Definition firing_A : Firing demo_capabilities :=
  @mkFiring _ demo_capabilities rule_A [Some 0%nat].

(** ** Auxiliary definitions

    Loop bodies and folds named for the proofs, and the order on
    watermarks. *)

Definition regex_step {Argv} (request : Request) (i : nat)
    (rule : ForemanRule Argv) : ForemanRule Argv :=
  match condition_at request i with
  | Some c => add_regex_rule c rule
  | None => rule
  end.

Definition with_regex_rules {Argv} (rule : ForemanRule Argv)
    (l : list ForemanAttributeRegex) : ForemanRule Argv :=
  mkRule (description rule) (created rule) (expires rule) l (actions rule).

Definition with_actions {Argv} (rule : ForemanRule Argv)
    (l : list (ForemanRuleAction Argv)) : ForemanRule Argv :=
  mkRule (description rule) (created rule) (expires rule) (regex_rules rule) l.

(** The actions collected from a list of form indices, up to the first index
    whose action cannot be built. *)
Fixpoint scan_actions {Argv} (F : Framework Argv) (request : Request)
    (idxs : list nat) : list (ForemanRuleAction Argv) * result unit :=
  match idxs with
  | [] => ([], inr tt)
  | i :: idxs' =>
      match action_at F request i with
      | Skip => scan_actions F request idxs'
      | Add a => let '(l, r) := scan_actions F request idxs' in (a :: l, r)
      | Raise e => ([], inl e)
      end
  end.

Definition action_body {Argv} (F : Framework Argv) (request : Request)
    (i : nat) : M (ForemanRule Argv) unit :=
  match truthy (REQ_get request (fmt_index "flow_name_" i)) with
  | None => mret tt
  | Some flow_name =>
      flow_class ← lift (classes_getitem F flow_name);
      arg_list ← lift (GetArgs F flow_class request (fmt_index "v_%s_" i));
      args ← lift (BuildArgs F arg_list);
      argv ← lift (ProtoDict_ToProto F args);
      modify (add_action (mkAction flow_name argv))
  end.

Definition delete_step {A} (rule_id : Z) (new_rules : list A)
    (ir : Z * A) : list A :=
  let '(i, rule) := ir in
  if bool_decide (i = rule_id) then new_rules else new_rules ++ [rule].

(** [long(expire_date)] as the handler computes it from the request. *)
Definition request_expires {Argv} (F : Framework Argv) (request : Request)
    : result Z :=
  REQ_getitem request "expires_text" ≫= ParseFromHumanReadable F.

(** Order on watermarks; a client without a record is below every
    watermark. *)
Definition wm_le (a b : option Z) : Prop :=
  match a, b with
  | None, _ => True
  | Some x, Some y => x ≤ y
  | Some _, None => False
  end.

Definition ledger_le (l1 l2 : gmap string Z) : Prop :=
  ∀ c, wm_le (l1 !! c) (l2 !! c).

(** What a firing that went through leaves in the ledger. *)
Definition recorded {Argv} {C : Capabilities Argv} (l : gmap string Z)
    (c : string) (f : Firing C) : Prop :=
  fully_fired f = true → wm_le (Some (created (fired_rule f))) (l !! c).

(** The three fields a condition contributes to the form, with the prefix
    of their keys. *)
Inductive regex_field : string → (ForemanAttributeRegex → string) → Prop :=
  | field_path : regex_field "path_" path
  | field_attribute_name : regex_field "attribute_name_" attribute_name
  | field_attribute_regex : regex_field "attribute_regex_" attribute_regex.

(** The loops of [BuildDefaults], with the enumeration started at [i0]. *)
Definition defaults_regex_from (i0 : Z)
    (regex_rules : list ForemanAttributeRegex)
    (result : gmap string PyValue) : gmap string PyValue :=
  foldl (λ result '(i, regex_rule),
           foldl (λ result '(name, value),
                    let result :=
                      <[fmt_int (name +:+ "_") i := VStr value]> result in
                    <["rule_count" := VInt (i + 1)]> result)
                 result (ListFields regex_rule))
        result (enumerate_from i0 regex_rules).

Definition defaults_actions_from {Argv} (i0 : Z)
    (acts : list (ForemanRuleAction Argv))
    (result : gmap string PyValue) : gmap string PyValue :=
  foldl (λ result '(i, action_rule),
           <[fmt_int "flow_name_" i := VStr (flow_name action_rule)]> result)
        result (enumerate_from i0 acts).

(** The dictionary after the condition fields of index [i] are written. *)
Definition regex_entry (i : Z) (c : ForemanAttributeRegex)
    (d : gmap string PyValue) : gmap string PyValue :=
  <["rule_count" := VInt (i + 1)]>
    (<[fmt_int "attribute_regex_" i := VStr (attribute_regex c)]>
       (<["rule_count" := VInt (i + 1)]>
          (<[fmt_int "attribute_name_" i := VStr (attribute_name c)]>
             (<["rule_count" := VInt (i + 1)]>
                (<[fmt_int "path_" i := VStr (path c)]> d))))).

(** The dictionary [BuildDefaults] starts from, and the one it has built for
    a selected rule before the two human-readable dates are added. *)
Definition base_defaults (clock_created clock_expires : Z)
    : gmap string PyValue :=
  list_to_map [("created", VInt clock_created);
               ("expires", VInt clock_expires);
               ("rule_count", VInt 1); ("action_count", VInt 1);
               ("rule_id", VInt (-1))].

Definition rule_defaults {Argv} (clock_created clock_expires n : Z)
    (rule : ForemanRule Argv) : gmap string PyValue :=
  <["action_count" := VInt (Z.of_nat (length (actions rule)))]>
    (defaults_actions (actions rule)
       (defaults_regex_rules (regex_rules rule)
          (<["description" := VStr (description rule)]>
             (<["expires" := VInt (expires rule)]>
                (<["created" := VInt (created rule)]>
                   (<["rule_id" := VInt n]>
                      (base_defaults clock_created clock_expires))))))).

Definition with_texts (RDFDatetime_str : PyValue → string)
    (created_v expires_v : PyValue) (d : gmap string PyValue)
    : gmap string PyValue :=
  <["expires_text" := VStr (RDFDatetime_str expires_v)]>
    (<["created_text" := VStr (RDFDatetime_str created_v)]> d).

(** ** Sample data for the form renderers *)

(** The filled-in form with three more condition parameters, of index 100. *)
Definition long_form_request : Request :=
  mkRequest (<["path_100" := "/late"]>
               (<["attribute_name_100" := "os"]>
                  (<["attribute_regex_100" := "x"]> (REQ form_request))))
            "admin".

Definition rule_D : ForemanRule (list (string * string)) :=
  mkRule "listing" 140 500 []
         [mkAction "ListDirectory" [("path", "/tmp")];
          mkAction "ListDirectory" []].

Definition stored_flows : ForemanObject (list (string * string)) :=
  mkForeman (Some [rule_A; rule_D]) [].

(** Dates are shown as their number of microseconds. *)
Definition demo_str (v : PyValue) : string := form_value v.

(** The defaults of the edit form for [rule_B], stored at index 1. *)
Definition defaults_B : gmap string PyValue :=
  with_texts demo_str (VInt 110) (VInt 300) (rule_defaults 7 8 1 rule_B).

(** The request a form filled with these defaults sends back. *)
Definition resubmit_B : Request :=
  mkRequest (form_value <$> defaults_B) "admin".

Definition demo_form_GetArgs (cls : list string) (request : Request)
    (template : string) : pyresult (list (string * string * string * string)) :=
  inr ((λ name, (name, fmt_name template name,
                 default "" (REQ_get request (fmt_name template name)), ""))
         <$> cls).

Definition demo_form_framework
    : FormFramework (list (string * string)) string :=
  {| form_FlowClass := list string;
     form_classes := {[ "ListDirectory" := ["path"]; "Interrogate" := [] ]};
     form_GetArgs := demo_form_GetArgs;
     ProtoDict_ToDict := λ argv, inr (list_to_map argv) |}.

(** Requests of the action form: rule, action and selected flow. *)
Definition flow_form_request (rule_id action_id flow : string) : Request :=
  mkRequest (list_to_map [("rule_id", rule_id); ("action_id", action_id);
                          ("flow", flow)]) "admin".

(** * Properties *)

(** ** The monad and its loops *)

Lemma for_each_nil {S A} (body : A → M S unit) (s : S) :
  for_each [] body s = (s, inr tt).
Proof. reflexivity. Qed.

Lemma for_each_cons {S A} (x : A) (xs : list A) (body : A → M S unit) (s : S) :
  for_each (x :: xs) body s =
  match body x s with
  | (s', inr _) => for_each xs body s'
  | (s', inl e) => (s', inl e)
  end.
Proof. reflexivity. Qed.

(** A loop whose body never raises is a left fold of its effect on the
    state. *)
Lemma for_each_total {S A} (step : A → S → S) (body : A → M S unit) :
  (∀ x s, body x s = (step x s, inr tt)) →
  ∀ xs s, for_each xs body s = (foldl (λ s x, step x s) s xs, inr tt).
Proof.
  intros Hbody xs. induction xs as [|x xs IH]; intros s.
  - reflexivity.
  - rewrite for_each_cons, Hbody. apply IH.
Qed.

(** ** ParseRegexRules *)

Lemma regex_body_step {Argv} (request : Request) (i : nat)
    (rule : ForemanRule Argv) :
  except_KeyError_pass (
      path ← lift (REQ_getitem request (fmt_index "path_" i));
      attribute_name ←
        lift (REQ_getitem request (fmt_index "attribute_name_" i));
      attribute_regex ←
        lift (REQ_getitem request (fmt_index "attribute_regex_" i));
      modify (add_regex_rule (mkRegex path attribute_name attribute_regex)))
    rule
  = (regex_step request i rule, inr tt).
Proof.
  unfold except_KeyError_pass, regex_step, condition_at, mbind, M_bind, lift,
    modify, REQ_getitem.
  destruct (REQ request !! fmt_index "path_" i); [|reflexivity].
  destruct (REQ request !! fmt_index "attribute_name_" i); [|reflexivity].
  destruct (REQ request !! fmt_index "attribute_regex_" i); reflexivity.
Qed.

Lemma regex_fold {Argv} (request : Request) (idxs : list nat)
    (rule : ForemanRule Argv) :
  foldl (λ r i, regex_step request i r) rule idxs =
  with_regex_rules rule (regex_rules rule ++ omap (condition_at request) idxs).
Proof.
  revert rule. induction idxs as [|i idxs IH]; intros rule; csimpl.
  - rewrite app_nil_r. by destruct rule.
  - rewrite IH. unfold regex_step.
    destruct (condition_at request i) as [c|]; [|reflexivity].
    unfold with_regex_rules; simpl. by rewrite <- app_assoc.
Qed.

Lemma length_omap_le {A B} (f : A → option B) (l : list A) :
  (length (omap f l) ≤ length l)%nat.
Proof.
  induction l as [|x l IH]; csimpl; [lia|].
  destruct (f x); csimpl; lia.
Qed.

(** C8: [ParseRegexRules] never raises and appends to the rule under
    construction the conditions of the form indices 0..99, in ascending
    order, one for each index whose three parameters are all present and
    none for any other index; at most 100 conditions are added and the other
    fields of the rule are left alone. *)
Theorem ParseRegexRules_scan {Argv} (request : Request)
    (rule : ForemanRule Argv) :
  let added := omap (condition_at request) (seq 0 100) in
  ParseRegexRules request rule
    = (with_regex_rules rule (regex_rules rule ++ added), inr tt)
  ∧ (length added ≤ 100)%nat
  ∧ ∀ i, condition_at request i =
         (p ← REQ request !! fmt_index "path_" i;
          n ← REQ request !! fmt_index "attribute_name_" i;
          r ← REQ request !! fmt_index "attribute_regex_" i;
          Some (mkRegex p n r)).
Proof.
  intros added. split; [|split].
  - unfold ParseRegexRules, range.
    rewrite (for_each_total (regex_step request))
      by (intros; apply regex_body_step).
    by rewrite regex_fold.
  - unfold added. etrans; [apply length_omap_le|]. by rewrite length_seq.
  - intros i. unfold condition_at.
    destruct (REQ request !! fmt_index "path_" i); [|reflexivity]; simpl.
    destruct (REQ request !! fmt_index "attribute_name_" i); [|reflexivity].
    simpl.
    by destruct (REQ request !! fmt_index "attribute_regex_" i).
Qed.

(** ** ParseActionRules *)

Lemma action_body_step {Argv} (F : Framework Argv) (request : Request)
    (i : nat) (rule : ForemanRule Argv) :
  action_body F request i rule =
  match action_at F request i with
  | Skip => (rule, inr tt)
  | Add a => (add_action a rule, inr tt)
  | Raise e => (rule, inl e)
  end.
Proof.
  unfold action_body, action_at, argv_at, truthy, REQ_get.
  destruct (REQ request !! fmt_index "flow_name_" i) as [name|];
    [|reflexivity].
  destruct (bool_decide (name = "")); [reflexivity|].
  unfold mbind, M_bind, result_bind, lift, modify.
  destruct (classes_getitem F name) as [e|cls]; [reflexivity|].
  destruct (GetArgs F cls request (fmt_index "v_%s_" i)) as [e|al];
    [reflexivity|].
  destruct (BuildArgs F al) as [e|args]; [reflexivity|].
  destruct (ProtoDict_ToProto F args) as [e|v]; reflexivity.
Qed.

Lemma action_loop_scan {Argv} (F : Framework Argv) (request : Request)
    (idxs : list nat) (rule : ForemanRule Argv) :
  for_each idxs (action_body F request) rule =
  (with_actions rule (actions rule ++ (scan_actions F request idxs).1),
   (scan_actions F request idxs).2).
Proof.
  revert rule. induction idxs as [|i idxs IH]; intros rule.
  - simpl. rewrite app_nil_r. by destruct rule.
  - rewrite for_each_cons, action_body_step. simpl.
    destruct (action_at F request i) as [|a|e].
    + apply IH.
    + rewrite IH. destruct (scan_actions F request idxs) as [l r]. simpl.
      unfold with_actions. simpl. by rewrite <- app_assoc.
    + simpl. rewrite app_nil_r. by destruct rule.
Qed.

(** The scan collects the actions of a prefix of the indices: the whole list
    when nothing raises, and otherwise the indices before the first one whose
    action raises. *)
Lemma scan_actions_prefix {Argv} (F : Framework Argv) (request : Request)
    (idxs : list nat) :
  ∃ k : nat,
    (k ≤ length idxs)%nat
    ∧ (scan_actions F request idxs).1
        = omap (added_at F request) (take k idxs)
    ∧ (∀ i, i ∈ take k idxs → ∀ e, action_at F request i ≠ Raise e)
    ∧ ((k = length idxs ∧ (scan_actions F request idxs).2 = inr tt)
       ∨ ∃ i e, idxs !! k = Some i ∧ action_at F request i = Raise e
                ∧ (scan_actions F request idxs).2 = inl e).
Proof.
  induction idxs as [|i idxs (k & Hk & Hl & Hno & Hend)].
  - exists 0%nat. simpl. repeat split; [lia|set_solver|by left].
  - simpl. destruct (action_at F request i) as [|a|e] eqn:Hi.
    + exists (S k). csimpl. unfold added_at at 1. rewrite Hi.
      repeat split; [lia|done| |].
      * intros j [->|Hj]%elem_of_cons e; [congruence|by apply Hno].
      * destruct Hend as [[-> Hr]|(j & e & Hj & He & Hr)];
          [by left|right; eauto].
    + exists (S k). destruct (scan_actions F request idxs) as [l r].
      csimpl in *. unfold added_at at 1. rewrite Hi.
      repeat split; [lia|by rewrite Hl| |].
      * intros j [->|Hj]%elem_of_cons e; [congruence|by apply Hno].
      * destruct Hend as [[-> Hr]|(j & e & Hj & He & Hr)];
          [by left|right; eauto].
    + exists 0%nat. simpl. repeat split; [lia|set_solver|].
      right. exists i, e. done.
Qed.

(** C9: [ParseActionRules] appends to the rule under construction the
    actions of the form indices 0..k-1 in ascending order, where k is 100
    unless building the action of index k raises; at most 100 actions are
    added.  An index whose flow_name parameter is absent or empty adds
    nothing and the scan goes on; an added action carries the flow name and
    the arguments of its own index. *)
Theorem ParseActionRules_scan {Argv} (F : Framework Argv) (request : Request)
    (rule : ForemanRule Argv) :
  ∃ (k : nat) (res : result unit),
    let added := omap (added_at F request) (seq 0 k) in
    (k ≤ 100)%nat
    ∧ ParseActionRules F request rule
        = (with_actions rule (actions rule ++ added), res)
    ∧ (length added ≤ 100)%nat
    ∧ (∀ i, (i < k)%nat → ∀ e, action_at F request i ≠ Raise e)
    ∧ ((k = 100%nat ∧ res = inr tt)
       ∨ ((k < 100)%nat ∧
          ∃ e, action_at F request k = Raise e ∧ res = inl e))
    ∧ (∀ i, truthy (REQ_get request (fmt_index "flow_name_" i)) = None →
            action_at F request i = Skip ∧ added_at F request i = None)
    ∧ (∀ i a, added_at F request i = Some a →
              REQ_get request (fmt_index "flow_name_" i) = Some (flow_name a)
              ∧ flow_name a ≠ ""
              ∧ argv_at F request (flow_name a) i = inr (argv a)).
Proof.
  destruct (scan_actions_prefix F request (seq 0 100))
    as (k & Hk & Hl & Hno & Hend).
  rewrite length_seq in Hk.
  assert (take k (seq 0 100) = seq 0 k) as Htake.
  { rewrite take_seq. f_equal. lia. }
  rewrite Htake in Hl, Hno.
  exists k, (scan_actions F request (seq 0 100)).2. cbv zeta.
  split; [done|]. split; [|split; [|split; [|split; [|split]]]].
  - unfold ParseActionRules, range. fold (action_body F request).
    rewrite action_loop_scan. by rewrite Hl.
  - etrans; [apply length_omap_le|]. by rewrite length_seq.
  - intros i Hi. apply Hno. apply elem_of_seq. lia.
  - destruct Hend as [[-> Hr]|(i & e & Hi & He & Hr)].
    + left. by rewrite length_seq.
    + right. apply lookup_seq in Hi as [-> Hi]. split; [lia|]. eauto.
  - intros i Hi. unfold added_at, action_at, truthy, REQ_get in *.
    destruct (REQ request !! fmt_index "flow_name_" i) as [name|]; [|done].
    by destruct (bool_decide (name = "")).
  - intros i a Ha. unfold added_at, action_at, REQ_get in *.
    destruct (REQ request !! fmt_index "flow_name_" i) as [name|]; [|done].
    destruct (bool_decide (name = "")) eqn:Hname; [done|].
    apply bool_decide_eq_false in Hname.
    destruct (argv_at F request name i) as [e|v] eqn:Hv; [done|].
    by simplify_eq.
Qed.

(** ** AddRuleToForeman *)

(** C4: whatever is stored (a rule collection or nothing at all), after
    [AddRuleToForeman] the stored collection is the previous one, unchanged
    and in the same order, followed by the new rule as its last element. *)
Theorem AddRuleToForeman_appends {Argv} (rule : ForemanRule Argv)
    (fd : ForemanObject Argv) :
  let old := default [] (RULES fd) in
  ∃ new, RULES (AddRuleToForeman rule fd) = Some new
         ∧ new = old ++ [rule]
         ∧ last new = Some rule
         ∧ take (length old) new = old
         ∧ length new = S (length old).
Proof.
  intros old. exists (old ++ [rule]).
  split; [|split; [done|split; [|split]]].
  - unfold AddRuleToForeman, old. by destruct (RULES fd).
  - apply last_snoc.
  - by rewrite take_app_length.
  - rewrite length_app. simpl. lia.
Qed.

(** ** DeleteRule *)

(** The loop copies everything when the index lies outside the enumerated
    positions. *)
Lemma delete_loop_outside {A} (rule_id : Z) (rules : list A) :
  ∀ (i0 : Z) (acc : list A),
    rule_id < i0 ∨ i0 + Z.of_nat (length rules) ≤ rule_id →
    foldl (delete_step rule_id) acc (enumerate_from i0 rules) = acc ++ rules.
Proof.
  induction rules as [|x rules IH]; intros i0 acc Hout; simpl.
  - by rewrite app_nil_r.
  - rewrite bool_decide_eq_false_2 by (simpl in Hout; lia).
    rewrite IH by (simpl in Hout; lia).
    by rewrite <- app_assoc.
Qed.

(** The loop leaves out exactly the enumerated position equal to the
    index. *)
Lemma delete_loop_inside {A} (rule_id : Z) (rules : list A) :
  ∀ (i0 : Z) (acc : list A),
    i0 ≤ rule_id < i0 + Z.of_nat (length rules) →
    foldl (delete_step rule_id) acc (enumerate_from i0 rules)
    = acc ++ take (Z.to_nat (rule_id - i0)) rules
          ++ drop (S (Z.to_nat (rule_id - i0))) rules.
Proof.
  induction rules as [|x rules IH]; intros i0 acc Hin; simpl in *; [lia|].
  destruct (decide (i0 = rule_id)) as [->|Hne].
  - rewrite bool_decide_eq_true_2 by done.
    rewrite delete_loop_outside by lia.
    by rewrite Z.sub_diag.
  - rewrite bool_decide_eq_false_2 by done.
    rewrite IH by lia.
    replace (Z.to_nat (rule_id - i0)) with (S (Z.to_nat (rule_id - (i0 + 1))))
      by lia.
    simpl. by rewrite <- app_assoc.
Qed.

Lemma DeleteRule_Layout_unfold {Argv} (request : Request)
    (fd : ForemanObject Argv) (rule_id : Z) :
  request_rule_id request = inr rule_id →
  DeleteRule_Layout request fd =
  (match bool_decide (0 ≤ rule_id), RULES fd with
   | true, Some rules =>
       Set_RULES (foldl (delete_step rule_id) [] (enumerate rules)) fd
   | _, _ => fd
   end, inr (RemovedRule rule_id)).
Proof. intros Hid. unfold DeleteRule_Layout. by rewrite Hid. Qed.

(** When the request carries no rule_id the index defaults to -1. *)
Lemma request_rule_id_default (request : Request) :
  REQ_get request "rule_id" = None → request_rule_id request = inr (-1).
Proof. intros H. unfold request_rule_id. by rewrite H. Qed.

(** C3: for a valid index i, [DeleteRule] answers normally and stores the
    old collection with exactly position i left out: the rules before i
    followed by the rules after i, in their original order, one rule fewer
    in all. *)
Theorem DeleteRule_removes_index {Argv} (request : Request)
    (fd : ForemanObject Argv) (rules : list (ForemanRule Argv)) (i : Z) :
  request_rule_id request = inr i →
  RULES fd = Some rules →
  0 ≤ i < Z.of_nat (length rules) →
  ∃ new_rules,
    DeleteRule_Layout request fd
      = (Set_RULES new_rules fd, inr (RemovedRule i))
    ∧ RULES (Set_RULES new_rules fd) = Some new_rules
    ∧ new_rules = take (Z.to_nat i) rules ++ drop (S (Z.to_nat i)) rules
    ∧ new_rules = delete (Z.to_nat i) rules
    ∧ S (length new_rules) = length rules.
Proof.
  intros Hid Hrules Hi.
  exists (take (Z.to_nat i) rules ++ drop (S (Z.to_nat i)) rules).
  split; [|split; [done|split; [done|split]]].
  - rewrite (DeleteRule_Layout_unfold _ _ i) by done.
    rewrite Hrules, bool_decide_eq_true_2 by lia.
    unfold enumerate. rewrite delete_loop_inside by lia.
    by rewrite Z.sub_0_r.
  - by rewrite delete_take_drop.
  - rewrite length_app, length_take, length_drop. lia.
Qed.

(** C10: when the index is negative, or when no rule collection is stored,
    [DeleteRule] writes nothing: the foreman object, its write journal
    included, is the one it was before, and the handler answers normally. *)
Theorem DeleteRule_no_write {Argv} (request : Request)
    (fd : ForemanObject Argv) (i : Z) :
  request_rule_id request = inr i →
  i < 0 ∨ RULES fd = None →
  DeleteRule_Layout request fd = (fd, inr (RemovedRule i)).
Proof.
  intros Hid Hcase. rewrite (DeleteRule_Layout_unfold _ _ i) by done.
  destruct Hcase as [Hneg|Hnone].
  - by rewrite bool_decide_eq_false_2 by lia.
  - rewrite Hnone. by destruct (bool_decide (0 ≤ i)).
Qed.

(** C2, as the handler behaves: for an index that is no position of the
    stored collection (negative, or at least the number of stored rules)
    [DeleteRule] raises nothing; it answers as for a removal and the stored
    rules are what they were. *)
Theorem DeleteRule_invalid_index_silent {Argv} (request : Request)
    (fd : ForemanObject Argv) (i : Z) :
  request_rule_id request = inr i →
  i < 0 ∨ Z.of_nat (length (default [] (RULES fd))) ≤ i →
  ∃ fd', DeleteRule_Layout request fd = (fd', inr (RemovedRule i))
         ∧ RULES fd' = RULES fd.
Proof.
  intros Hid Hcase. rewrite (DeleteRule_Layout_unfold _ _ i) by done.
  destruct (bool_decide (0 ≤ i)) eqn:Hpos; [|eauto].
  destruct (RULES fd) as [rules|] eqn:Hrules; [|eauto].
  apply bool_decide_eq_true in Hpos. simpl in Hcase.
  eexists. split; [reflexivity|].
  unfold enumerate. rewrite delete_loop_outside by lia. done.
Qed.

(** ** AddForemanRuleAction.Layout *)

(** X1: a response that reports an error comes with an untouched foreman
    object: nothing is stored on any failing path. *)
Lemma AddRule_error_no_write {Argv} (F : Framework Argv) (now : Z)
    (request : Request) (fd : ForemanObject Argv) :
  is_error (AddForemanRuleAction_Layout F now request fd).2 = true →
  (AddForemanRuleAction_Layout F now request fd).1 = fd.
Proof.
  unfold AddForemanRuleAction_Layout, ErrorHandler,
    AddForemanRuleAction_Layout_body.
  destruct (REQ_getitem request "expires_text" ≫= ParseFromHumanReadable F)
    as [e|expire_date]; [done|].
  simpl. case_bool_decide; [done|].
  destruct ((ParseRegexRules request;; ParseActionRules F request) _)
    as [rule [e|[]]]; done.
Qed.

(** A request whose expiry is not before the clock, and whose conditions and
    actions parse, stores the rule. *)
Lemma AddRule_accepts {Argv} (F : Framework Argv) (now : Z)
    (request : Request) (fd : ForemanObject Argv) (expire_date : Z)
    (rule : ForemanRule Argv) :
  request_expires F request = inr expire_date →
  now ≤ expire_date →
  (ParseRegexRules request;; ParseActionRules F request)
    (mkRule (default "" (REQ_get request "description")) now expire_date [] [])
    = (rule, inr tt) →
  AddForemanRuleAction_Layout F now request fd
  = (AddRuleToForeman rule fd, CreatedRule rule).
Proof.
  intros Hexp Hle Hparse.
  unfold AddForemanRuleAction_Layout, ErrorHandler,
    AddForemanRuleAction_Layout_body.
  unfold request_expires in Hexp. rewrite Hexp. simpl.
  rewrite bool_decide_eq_false_2 by lia.
  by rewrite Hparse.
Qed.

(** C1, as the handler behaves: a request whose expires timestamp is
    strictly less than its created timestamp is rejected: the handler
    answers with the error message and the foreman object, hence the stored
    rule collection, is left untouched. *)
Theorem AddRule_rejects_expired {Argv} (F : Framework Argv) (now : Z)
    (request : Request) (fd : ForemanObject Argv) (expire_date : Z) :
  request_expires F request = inr expire_date →
  expire_date < now →
  AddForemanRuleAction_Layout F now request fd
    = (fd, ErrorMessage "Rule already expired?")
  ∧ is_error (AddForemanRuleAction_Layout F now request fd).2 = true.
Proof.
  intros Hexp Hlt.
  assert (AddForemanRuleAction_Layout F now request fd
          = (fd, ErrorMessage "Rule already expired?")) as ->; [|done].
  unfold AddForemanRuleAction_Layout, ErrorHandler,
    AddForemanRuleAction_Layout_body.
  unfold request_expires in Hexp. rewrite Hexp. simpl.
  by rewrite bool_decide_eq_true_2 by lia.
Qed.

(** ** The engine: watermarks only grow *)

#[local] Instance wm_le_refl : Reflexive wm_le.
Proof. intros [x|]; simpl; [lia|done]. Qed.

#[local] Instance wm_le_trans : Transitive wm_le.
Proof. intros [x|] [y|] [z|]; simpl; try done; lia. Qed.

Lemma wm_le_Some (w : Z) (b : option Z) :
  wm_le (Some w) b → ∃ w', b = Some w' ∧ w ≤ w'.
Proof. destruct b as [w'|]; simpl; [eauto|done]. Qed.

#[local] Instance ledger_le_refl : Reflexive ledger_le.
Proof. intros l c. reflexivity. Qed.

#[local] Instance ledger_le_trans : Transitive ledger_le.
Proof. intros l1 l2 l3 H12 H23 c. etrans; [apply H12|apply H23]. Qed.

Lemma advance_le (l : gmap string Z) (c : string) (t : Z) :
  ledger_le l (advance l c t).
Proof.
  intros c'. unfold advance. destruct (decide (c = c')) as [->|Hne].
  - rewrite lookup_insert_eq. destruct (l !! c'); simpl; [lia|done].
  - by rewrite lookup_insert_ne.
Qed.

Lemma advance_reaches (l : gmap string Z) (c : string) (t : Z) :
  wm_le (Some t) (advance l c t !! c).
Proof.
  unfold advance. rewrite lookup_insert_eq.
  destruct (l !! c); simpl; lia.
Qed.

Lemma advance_other (l : gmap string Z) (c c' : string) (t : Z) :
  c ≠ c' → advance l c t !! c' = l !! c'.
Proof. intros Hne. unfold advance. by rewrite lookup_insert_ne. Qed.

Lemma ShouldFire_above {Argv} (l : gmap string Z) (c : string)
    (rule : ForemanRule Argv) (w : Z) :
  l !! c = Some w → ShouldFire l c rule = true → w < created rule.
Proof.
  intros Hw. unfold ShouldFire. rewrite Hw. apply bool_decide_eq_true.
Qed.

Section Engine.
Context {Argv : Type} (C : Capabilities Argv).
Implicit Types (st : EngineState C) (rule : ForemanRule Argv).
Implicit Types (f : Firing C) (c : string) (l : gmap string Z).

Lemma recorded_mono l l' c f :
  ledger_le l l' → recorded l c f → recorded l' c f.
Proof. intros Hle Hrec Hf. etrans; [by apply Hrec|apply Hle]. Qed.

Lemma evaluate_rule_ledger c snapshot st rule :
  ledger_le (ledger st) (ledger (evaluate_rule C c snapshot st rule)).
Proof.
  unfold evaluate_rule.
  destruct (Matches C rule snapshot && ShouldFire (ledger st) c rule);
    [|reflexivity].
  destruct (Dispatch C c (actions rule) (world st)) as [w hs]. simpl.
  destruct (fully_fired _); [apply advance_le|reflexivity].
Qed.

Lemma evaluate_rule_firings c snapshot st rule f :
  f ∈ firings (evaluate_rule C c snapshot st rule) →
  f ∈ firings st
  ∨ (fired_rule f = rule
     ∧ ShouldFire (ledger st) c rule = true
     ∧ Matches C rule snapshot = true
     ∧ recorded (ledger (evaluate_rule C c snapshot st rule)) c f).
Proof.
  unfold evaluate_rule.
  destruct (Matches C rule snapshot) eqn:Hm; [|by left].
  destruct (ShouldFire (ledger st) c rule) eqn:Hs; [|by left].
  simpl. destruct (Dispatch C c (actions rule) (world st)) as [w hs]. simpl.
  intros [Hold| ->%list_elem_of_singleton]%elem_of_app; [by left|].
  right. repeat split. intros Hf. simpl in *. rewrite Hf.
  apply advance_reaches.
Qed.

Lemma evaluate_fold_ledger c snapshot rules :
  ∀ st, ledger_le (ledger st)
                  (ledger (foldl (evaluate_rule C c snapshot) st rules)).
Proof.
  induction rules as [|rule rules IH]; intros st; simpl; [reflexivity|].
  etrans; [apply evaluate_rule_ledger|apply IH].
Qed.

Lemma evaluate_fold_firings c snapshot rules :
  ∀ st f,
    f ∈ firings (foldl (evaluate_rule C c snapshot) st rules) →
    f ∈ firings st
    ∨ (fired_rule f ∈ rules
       ∧ Matches C (fired_rule f) snapshot = true
       ∧ recorded (ledger (foldl (evaluate_rule C c snapshot) st rules)) c f).
Proof.
  induction rules as [|rule rules IH]; intros st f; simpl; [by left|].
  intros [Hin|(Hr & Hm & Hrec)]%IH.
  - apply evaluate_rule_firings in Hin as [Hin|(Hr & _ & Hm & Hrec)];
      [by left|right].
    split; [rewrite Hr; apply elem_of_cons; by left|].
    split; [by rewrite Hr|].
    eapply recorded_mono; [apply evaluate_fold_ledger|done].
  - right. split; [apply elem_of_cons; by right|done].
Qed.

(** A pass only raises watermarks. *)
Lemma Evaluate_ledger store c snapshot now l w :
  ledger_le l (ledger (after (Evaluate C store c snapshot now l w))).
Proof.
  unfold Evaluate. destruct (Load store) as [|rules]; simpl; [reflexivity|].
  set (st := foldl _ _ _).
  assert (ledger_le l (ledger st)) as Hst.
  { apply (evaluate_fold_ledger c snapshot _ (mkEngine l w [])). }
  destruct (max_created _); simpl; [|done].
  etrans; [exact Hst|apply advance_le].
Qed.

(** The rules handed to the Condition Evaluator are unexpired and above the
    client's watermark. *)
Lemma Evaluate_considered store c snapshot now l w rule :
  rule ∈ considered (Evaluate C store c snapshot now l w) →
  rule ∈ stored store ∧ now < expires rule ∧ ShouldFire l c rule = true.
Proof.
  unfold Evaluate, Load.
  destruct (reachable store); simpl; [|by intros ?%elem_of_nil].
  rewrite merge_sort_Permutation.
  intros [Hs [Ha Hin]%list_elem_of_filter]%list_elem_of_filter.
  split; [done|]. split; [done|]. by apply Is_true_true.
Qed.

(** Every firing of a pass is that of a considered rule that matches, and a
    firing that went through is covered by the client's new watermark. *)
Lemma Evaluate_firings store c snapshot now l w f :
  f ∈ firings (after (Evaluate C store c snapshot now l w)) →
  fired_rule f ∈ considered (Evaluate C store c snapshot now l w)
  ∧ Matches C (fired_rule f) snapshot = true
  ∧ recorded (ledger (after (Evaluate C store c snapshot now l w))) c f.
Proof.
  unfold Evaluate. destruct (Load store) as [|rules]; simpl;
    [by intros ?%elem_of_nil|].
  intros [Hin|(Hr & Hm & Hrec)]%evaluate_fold_firings;
    [by apply elem_of_nil in Hin|].
  split; [done|]. split; [done|].
  destruct (max_created _); simpl; [|done].
  eapply recorded_mono; [apply advance_le|done].
Qed.

Lemma run_passes_ledger (ts : list (Trigger Argv)) :
  ∀ l w, ledger_le l (run_passes C ts l w).1.
Proof.
  unfold run_passes.
  induction ts as [|t ts IH]; intros l w; simpl; [reflexivity|].
  etrans; [|apply IH]. apply Evaluate_ledger.
Qed.

End Engine.

(** ** The engine: the claims *)

(** C6: a rule without conditions matches every snapshot. *)
Theorem Matches_empty_conditions {Argv} (C : Capabilities Argv)
    (rule : ForemanRule Argv) (snapshot : gmap string string) :
  regex_rules rule = [] → Matches C rule snapshot = true.
Proof. intros Hnil. unfold Matches. by rewrite Hnil. Qed.

(** C7: in a pass at time [now], a rule with [expires ≤ now] is not handed
    to the Condition Evaluator and no firing of the pass is a firing of that
    rule, whatever its conditions and whatever the snapshot. *)
Theorem expired_rules_inert {Argv} (C : Capabilities Argv)
    (store : RuleSetStore Argv) (client_id : string)
    (snapshot : gmap string string) (now : Z) (l : gmap string Z)
    (w : World C) (rule : ForemanRule Argv) :
  expires rule ≤ now →
  (rule ∉ considered (Evaluate C store client_id snapshot now l w))
  ∧ (rule ∉ fired_rule <$>
              firings (after (Evaluate C store client_id snapshot now l w))).
Proof.
  intros Hexp.
  assert (rule ∉ considered (Evaluate C store client_id snapshot now l w))
    as Hnot.
  { intros (_ & Hlt & _)%Evaluate_considered. lia. }
  split; [done|].
  intros (f & -> & Hf)%list_elem_of_fmap.
  by apply Evaluate_firings in Hf as (Hc & _).
Qed.

(** C5: once a pass for a client has dispatched a rule with every task
    started, no later pass for that client dispatches the rule again,
    whichever passes (for this or other clients, with any store contents,
    snapshots and times) run in between: every rule a later pass dispatches
    for the client was created after it. *)
Theorem at_most_once_dispatch {Argv} (C : Capabilities Argv)
    (t1 : Trigger Argv) (between : list (Trigger Argv)) (t2 : Trigger Argv)
    (l0 : gmap string Z) (w0 : World C) (f : Firing C) :
  let r1 := run_pass C t1 l0 w0 in
  let s := run_passes C between (ledger (after r1)) (world (after r1)) in
  let r2 := run_pass C t2 s.1 s.2 in
  f ∈ firings (after r1) →
  fully_fired f = true →
  trigger_client t2 = trigger_client t1 →
  (fired_rule f ∉ fired_rule <$> firings (after r2))
  ∧ ∀ g, g ∈ firings (after r2) →
         created (fired_rule f) < created (fired_rule g).
Proof.
  intros r1 s r2 Hf Hfull Hclient.
  assert (∀ g, g ∈ firings (after r2) →
               created (fired_rule f) < created (fired_rule g)) as Hlater.
  { intros g Hg.
    apply Evaluate_firings in Hf as (_ & _ & Hrec).
    specialize (Hrec Hfull).
    assert (wm_le (Some (created (fired_rule f)))
                  (s.1 !! trigger_client t1)) as Hwm.
    { etrans; [exact Hrec|]. apply run_passes_ledger. }
    apply wm_le_Some in Hwm as (w' & Hw' & Hle).
    apply Evaluate_firings in Hg as (Hcons & _).
    apply Evaluate_considered in Hcons as (_ & _ & Hshould).
    rewrite Hclient in Hshould.
    pose proof (ShouldFire_above _ _ _ _ Hw' Hshould). lia. }
  split; [|done].
  intros (g & Heq & Hg)%list_elem_of_fmap.
  specialize (Hlater g Hg). rewrite Heq in Hlater. lia.
Qed.


(** * Concrete runs *)

Example py_int_examples :
  py_int "12" = inr 12 ∧ py_int " -1 " = inr (-1) ∧ py_int "+07" = inr 7 ∧
  (∃ e, py_int "" = inl e) ∧ (∃ e, py_int "1x" = inl e) ∧
  fmt_index "path_" 42 = "path_42" ∧ fmt_name "v_%s_3" "path" = "v_path_3".
Proof. vm_compute. naive_solver. Qed.

Example ParseRegexRules_form :
  ParseRegexRules form_request blank_rule
  = (with_regex_rules blank_rule
       [mkRegex "/" "os" "^Linux"; mkRegex "/fs" "size" "0"], inr tt).
Proof. vm_compute. reflexivity. Qed.

Example ParseActionRules_form :
  ParseActionRules demo_framework form_request blank_rule
  = (with_actions blank_rule
       [mkAction "ListDirectory" [("path", "/tmp")];
        mkAction "Interrogate" []], inr tt).
Proof. vm_compute. reflexivity. Qed.

(** An unknown flow name stops the scan with the actions of the earlier
    indices already added. *)
Example ParseActionRules_bad_form :
  ParseActionRules demo_framework bad_form_request blank_rule
  = (with_actions blank_rule [mkAction "ListDirectory" [("path", "/tmp")]],
     inl (KeyError "NoSuchFlow")).
Proof. vm_compute. reflexivity. Qed.

Example AddRule_form :
  AddForemanRuleAction_Layout demo_framework boundary_now form_request
    stored_three
  = let rule :=
      mkRule "demo" boundary_now 1325462400000000
        [mkRegex "/" "os" "^Linux"; mkRegex "/fs" "size" "0"]
        [mkAction "ListDirectory" [("path", "/tmp")];
         mkAction "Interrogate" []] in
    (mkForeman (Some [rule_A; rule_B; rule_C; rule])
               [[rule_A; rule_B; rule_C; rule]],
     CreatedRule rule).
Proof. vm_compute. reflexivity. Qed.

Example AddRule_bad_form :
  AddForemanRuleAction_Layout demo_framework boundary_now bad_form_request
    stored_three
  = (stored_three, ServerError (KeyError "NoSuchFlow")).
Proof. vm_compute. reflexivity. Qed.

(** ** Rule creation at the boundary *)

(** C1 as stated fails when the expiry equals the clock: the request is not
    answered with an error and the rule is stored. *)
Lemma AddRule_boundary_accepted :
  request_expires demo_framework boundary_request = inr boundary_now
  ∧ expires boundary_rule ≤ created boundary_rule
  ∧ AddForemanRuleAction_Layout demo_framework boundary_now boundary_request
      nothing_stored
    = (mkForeman (Some [boundary_rule]) [[boundary_rule]],
       CreatedRule boundary_rule)
  ∧ ¬ (is_error (AddForemanRuleAction_Layout demo_framework boundary_now
                   boundary_request nothing_stored).2 = true
       ∧ (AddForemanRuleAction_Layout demo_framework boundary_now
            boundary_request nothing_stored).1 = nothing_stored).
Proof.
  split; [by vm_compute|]. split; [by vm_compute|].
  assert (AddForemanRuleAction_Layout demo_framework boundary_now
            boundary_request nothing_stored
          = (mkForeman (Some [boundary_rule]) [[boundary_rule]],
             CreatedRule boundary_rule)) as ->
    by (vm_compute; reflexivity).
  split; [done|]. simpl. intros [? _]. done.
Qed.

Lemma AddRule_rejects_expired_witness :
  request_expires demo_framework boundary_request = inr boundary_now
  ∧ boundary_now < boundary_now + 1
  ∧ AddForemanRuleAction_Layout demo_framework (boundary_now + 1)
      boundary_request stored_three
    = (stored_three, ErrorMessage "Rule already expired?").
Proof.
  assert (request_expires demo_framework boundary_request = inr boundary_now)
    as H1 by (vm_compute; reflexivity).
  assert (boundary_now < boundary_now + 1) as H2 by lia.
  split; [exact H1|]. split; [exact H2|].
  exact (proj1 (AddRule_rejects_expired demo_framework (boundary_now + 1)
                  boundary_request stored_three boundary_now H1 H2)).
Defined.

(** ** Rule removal *)

(** C2 as stated fails: index 7 is no position of a collection of three
    rules, yet the handler raises nothing and answers as for a removal. *)
Lemma DeleteRule_out_of_range_succeeds :
  request_rule_id (delete_request "7") = inr 7
  ∧ RULES stored_three = Some [rule_A; rule_B; rule_C]
  ∧ Z.of_nat (length [rule_A; rule_B; rule_C]) ≤ 7
  ∧ (DeleteRule_Layout (delete_request "7") stored_three).2
    = inr (RemovedRule 7)
  ∧ ¬ ∃ e, (DeleteRule_Layout (delete_request "7") stored_three).2 = inl e.
Proof.
  assert ((DeleteRule_Layout (delete_request "7") stored_three).2
          = inr (RemovedRule 7)) as Hr by (vm_compute; reflexivity).
  split; [by vm_compute|]. split; [done|]. split; [simpl; lia|].
  split; [exact Hr|]. intros [e He]. rewrite Hr in He. discriminate.
Qed.

Lemma DeleteRule_invalid_index_silent_witness :
  request_rule_id (delete_request "7") = inr 7
  ∧ (7 < 0 ∨ Z.of_nat (length (default [] (RULES stored_three))) ≤ 7)
  ∧ ∃ fd', DeleteRule_Layout (delete_request "7") stored_three
           = (fd', inr (RemovedRule 7))
           ∧ RULES fd' = RULES stored_three.
Proof.
  assert (request_rule_id (delete_request "7") = inr 7) as H1
    by (vm_compute; reflexivity).
  assert (7 < 0 ∨ Z.of_nat (length (default [] (RULES stored_three))) ≤ 7)
    as H2 by (right; simpl; lia).
  split; [exact H1|]. split; [exact H2|].
  exact (DeleteRule_invalid_index_silent (delete_request "7") stored_three 7
           H1 H2).
Defined.

Lemma DeleteRule_removes_index_witness :
  request_rule_id (delete_request "1") = inr 1
  ∧ RULES stored_three = Some [rule_A; rule_B; rule_C]
  ∧ 0 ≤ 1 < Z.of_nat (length [rule_A; rule_B; rule_C])
  ∧ DeleteRule_Layout (delete_request "1") stored_three
    = (Set_RULES [rule_A; rule_C] stored_three, inr (RemovedRule 1)).
Proof.
  assert (request_rule_id (delete_request "1") = inr 1) as H1
    by (vm_compute; reflexivity).
  assert (RULES stored_three = Some [rule_A; rule_B; rule_C]) as H2
    by reflexivity.
  assert (0 ≤ 1 < Z.of_nat (length [rule_A; rule_B; rule_C])) as H3
    by (simpl; lia).
  split; [exact H1|]. split; [exact H2|]. split; [exact H3|].
  destruct (DeleteRule_removes_index (delete_request "1") stored_three
              [rule_A; rule_B; rule_C] 1 H1 H2 H3)
    as (new_rules & Hrun & _ & Hnew & _).
  rewrite Hrun, Hnew. reflexivity.
Defined.

Lemma DeleteRule_no_write_witness :
  request_rule_id empty_request = inr (-1)
  ∧ (-1 < 0 ∨ RULES stored_three = None)
  ∧ DeleteRule_Layout empty_request stored_three
    = (stored_three, inr (RemovedRule (-1))).
Proof.
  assert (request_rule_id empty_request = inr (-1)) as H1
    by (apply request_rule_id_default; reflexivity).
  assert (-1 < 0 ∨ RULES stored_three = None) as H2 by (left; lia).
  split; [exact H1|]. split; [exact H2|].
  exact (DeleteRule_no_write empty_request stored_three (-1) H1 H2).
Defined.

Example DeleteRule_nothing_stored :
  DeleteRule_Layout (delete_request "0") nothing_stored
  = (nothing_stored, inr (RemovedRule 0)).
Proof. vm_compute. reflexivity. Qed.

Example DeleteRule_bad_index_raises :
  ∃ e, DeleteRule_Layout (delete_request "one") stored_three
       = (stored_three, inl e).
Proof. vm_compute. eauto. Qed.

(** ** The engine on the sample rules *)

Lemma Matches_empty_conditions_witness :
  regex_rules rule_A = []
  ∧ Matches demo_capabilities rule_A {[ "os" := "Linux x86_64" ]} = true.
Proof.
  assert (regex_rules rule_A = []) as H1 by reflexivity.
  split; [exact H1|].
  exact (Matches_empty_conditions demo_capabilities rule_A
           {[ "os" := "Linux x86_64" ]} H1).
Defined.

Lemma expired_rules_inert_witness :
  expires rule_A ≤ 200
  ∧ (rule_A ∉ considered
       (Evaluate demo_capabilities store_A "C.1" ∅ 200 ∅ []))
  ∧ (rule_A ∉ fired_rule <$> firings (after
       (Evaluate demo_capabilities store_A "C.1" ∅ 200 ∅ []))).
Proof.
  assert (expires rule_A ≤ 200) as H1 by (simpl; lia).
  split; [exact H1|].
  exact (expired_rules_inert demo_capabilities store_A "C.1" ∅ 200 ∅ []
           rule_A H1).
Defined.

Lemma at_most_once_dispatch_witness :
  firing_A ∈ firings (after (run_pass demo_capabilities first_checkin ∅ []))
  ∧ fully_fired firing_A = true
  ∧ trigger_client second_checkin = trigger_client first_checkin
  ∧ (rule_A ∉ fired_rule <$> firings (after
       (run_pass demo_capabilities second_checkin
          (run_passes demo_capabilities [other_checkin]
             (ledger (after (run_pass demo_capabilities first_checkin ∅ [])))
             (world (after (run_pass demo_capabilities first_checkin ∅ [])))).1
          (run_passes demo_capabilities [other_checkin]
             (ledger (after (run_pass demo_capabilities first_checkin ∅ [])))
             (world (after (run_pass demo_capabilities first_checkin ∅ [])))).2
       ))).
Proof.
  assert (firing_A ∈ firings
            (after (run_pass demo_capabilities first_checkin ∅ []))) as H1
    by (vm_compute; constructor).
  assert (fully_fired firing_A = true) as H2 by reflexivity.
  assert (trigger_client second_checkin = trigger_client first_checkin) as H3
    by reflexivity.
  split; [exact H1|]. split; [exact H2|]. split; [exact H3|].
  exact (proj1 (at_most_once_dispatch demo_capabilities first_checkin
                  [other_checkin] second_checkin ∅ [] firing_A H1 H2 H3)).
Defined.

(** The scenarios of the specification: rule R1 is dispatched at t=150 and
    leaves the watermark at 100; at t=160 nothing is dispatched. *)
Example scenario_R1 :
  let r1 := Evaluate demo_capabilities store_A "C.1" ∅ 150 ∅ [] in
  let r2 := Evaluate demo_capabilities store_A "C.1" ∅ 160
              (ledger (after r1)) (world (after r1)) in
  firings (after r1) = [firing_A]
  ∧ world (after r1) = [("C.1", "TaskA")]
  ∧ ledger (after r1) !! "C.1" = Some 100
  ∧ firings (after r2) = []
  ∧ world (after r2) = [("C.1", "TaskA")].
Proof. vm_compute. done. Qed.

Example scenario_R3 :
  Matches demo_capabilities rule_B ∅ = false
  ∧ Matches demo_capabilities rule_B {[ "os" := "Linux x86_64" ]} = true
  ∧ Matches demo_capabilities rule_B {[ "os" := "GNU/Linux" ]} = false.
Proof. vm_compute. done. Qed.

(** A rule one of whose tasks cannot be started has all its actions
    attempted and is not recorded as fired by [RecordFired]. *)
Example scenario_broken :
  let r := Evaluate demo_capabilities (mkStore [rule_broken] true) "C.1" ∅
             150 {[ "C.1" := 100 ]} [] in
  firings (after r) = [@mkFiring _ demo_capabilities rule_broken
                         [None; Some 0%nat]]
  ∧ world (after r) = [("C.1", "TaskA")].
Proof. vm_compute. done. Qed.

(** * Further properties of the handlers *)

(** ** Form keys *)

Lemma fmt_index_inj (prefix : string) (i j : nat) :
  fmt_index prefix i = fmt_index prefix j → i = j.
Proof.
  unfold fmt_index. intros H%(inj (String.app prefix)).
  by apply (inj pretty) in H.
Qed.

Lemma fmt_int_inj (prefix : string) (i j : Z) :
  fmt_int prefix i = fmt_int prefix j → i = j.
Proof.
  unfold fmt_int. intros H%(inj (String.app prefix)).
  by apply (inj pretty) in H.
Qed.

Lemma fmt_int_of_nat (prefix : string) (i : nat) :
  fmt_int prefix (Z.of_nat i) = fmt_index prefix i.
Proof.
  unfold fmt_int, fmt_index. f_equal.
  unfold pretty, pretty_Z, pretty_nat. by destruct i.
Qed.

(** ** The parsers, as functions of the request *)

Lemma ParseRegexRules_run {Argv} (request : Request)
    (rule : ForemanRule Argv) :
  ParseRegexRules request rule
  = (with_regex_rules rule
       (regex_rules rule ++ omap (condition_at request) (seq 0 100)), inr tt).
Proof.
  unfold ParseRegexRules, range.
  rewrite (for_each_total (regex_step request))
    by (intros; apply regex_body_step).
  by rewrite regex_fold.
Qed.

Lemma ParseActionRules_run {Argv} (F : Framework Argv) (request : Request)
    (rule : ForemanRule Argv) :
  ParseActionRules F request rule
  = (with_actions rule
       (actions rule ++ (scan_actions F request (seq 0 100)).1),
     (scan_actions F request (seq 0 100)).2).
Proof.
  unfold ParseActionRules, range. fold (action_body F request).
  apply action_loop_scan.
Qed.

(** A scan that ends without an exception collected the actions of all its
    indices, and none of them raises. *)
Lemma scan_actions_ok {Argv} (F : Framework Argv) (request : Request)
    (idxs : list nat) :
  (scan_actions F request idxs).2 = inr tt →
  (scan_actions F request idxs).1 = omap (added_at F request) idxs
  ∧ ∀ i, i ∈ idxs → ∀ e, action_at F request i ≠ Raise e.
Proof.
  intros Hok.
  destruct (scan_actions_prefix F request idxs) as (k & Hk & Hl & Hno & Hend).
  destruct Hend as [[-> _]|(i & e & _ & _ & He)]; [|congruence].
  rewrite firstn_all in Hl, Hno. done.
Qed.

(** ** AddForemanRuleAction.Layout, end to end *)

(** X2: without an expires_text parameter the handler answers with the
    [KeyError] and stores nothing. *)
Lemma AddRule_missing_expires {Argv} (F : Framework Argv) (now : Z)
    (request : Request) (fd : ForemanObject Argv) :
  REQ_get request "expires_text" = None →
  AddForemanRuleAction_Layout F now request fd
  = (fd, ServerError (KeyError "expires_text")).
Proof.
  intros Hnone.
  unfold AddForemanRuleAction_Layout, ErrorHandler,
    AddForemanRuleAction_Layout_body, REQ_getitem.
  unfold REQ_get in Hnone. by rewrite Hnone.
Qed.

(** What a [CreatedRule] answer tells about the request and the store. *)
Lemma Layout_created_inv {Argv} (F : Framework Argv) (now : Z)
    (request : Request) (fd fd' : ForemanObject Argv)
    (rule : ForemanRule Argv) :
  AddForemanRuleAction_Layout F now request fd = (fd', CreatedRule rule) →
  ∃ expire_date,
    request_expires F request = inr expire_date
    ∧ now ≤ expire_date
    ∧ rule = mkRule (default "" (REQ_get request "description")) now
                    expire_date
                    (omap (condition_at request) (seq 0 100))
                    (omap (added_at F request) (seq 0 100))
    ∧ (∀ i e, (i < 100)%nat → action_at F request i ≠ Raise e)
    ∧ RULES fd' = Some (default [] (RULES fd) ++ [rule])
    ∧ journal fd' = journal fd ++ [default [] (RULES fd) ++ [rule]].
Proof.
  unfold AddForemanRuleAction_Layout, ErrorHandler,
    AddForemanRuleAction_Layout_body, request_expires.
  destruct (REQ_getitem request "expires_text" ≫= ParseFromHumanReadable F)
    as [e|expire_date]; [done|].
  cbv zeta. cbn [created expires].
  case_bool_decide as Hlt; [done|].
  unfold mbind at 1, M_bind at 1.
  rewrite ParseRegexRules_run, ParseActionRules_run.
  pose proof (scan_actions_ok F request (seq 0 100)) as Hok.
  destruct (scan_actions F request (seq 0 100)) as [l r].
  cbn [fst snd] in *. destruct r as [e|[]]; [done|].
  destruct Hok as [-> Hno]; [done|].
  assert (∀ i e, (i < 100)%nat → action_at F request i ≠ Raise e) as Hno'.
  { intros i e Hi. apply Hno, elem_of_seq. lia. }
  clear Hno.
  generalize dependent (omap (added_at F request) (seq 0 100)).
  generalize dependent (omap (condition_at request) (seq 0 100)).
  intros conds acts. unfold with_actions, with_regex_rules.
  cbn [description created expires regex_rules actions app].
  intros [= <- <-].
  exists expire_date. split; [done|]. split; [lia|]. split; [done|].
  split; [done|].
  unfold AddRuleToForeman. by destruct (RULES fd).
Qed.

(** An answer that reports an error leaves the foreman object as it was. *)
Lemma Layout_error_inv {Argv} (F : Framework Argv) (now : Z)
    (request : Request) (fd : ForemanObject Argv) :
  is_error (AddForemanRuleAction_Layout F now request fd).2 = true →
  (AddForemanRuleAction_Layout F now request fd).1 = fd.
Proof.
  unfold AddForemanRuleAction_Layout, ErrorHandler,
    AddForemanRuleAction_Layout_body.
  destruct (REQ_getitem request "expires_text" ≫= ParseFromHumanReadable F);
    [done|].
  cbv zeta. case_bool_decide; [done|].
  by destruct ((ParseRegexRules request;; ParseActionRules F request) _)
    as [? [?|[]]].
Qed.

(** X3: the rule reported as created is the one read off the request: its
    created time is the clock, its expiry the parsed date (not before the
    clock), its conditions and actions those of the form indices 0..99 in
    ascending order; and it has been appended to the stored collection in a
    single write. *)
Lemma AddRule_created_rule {Argv} (F : Framework Argv) (now : Z)
    (request : Request) (fd fd' : ForemanObject Argv)
    (rule : ForemanRule Argv) :
  AddForemanRuleAction_Layout F now request fd = (fd', CreatedRule rule) →
  ∃ expire_date,
    request_expires F request = inr expire_date
    ∧ now ≤ expire_date
    ∧ rule = mkRule (default "" (REQ_get request "description")) now
                    expire_date
                    (omap (condition_at request) (seq 0 100))
                    (omap (added_at F request) (seq 0 100))
    ∧ (∀ i e, (i < 100)%nat → action_at F request i ≠ Raise e)
    ∧ RULES fd' = Some (default [] (RULES fd) ++ [rule])
    ∧ journal fd' = journal fd ++ [default [] (RULES fd) ++ [rule]].
Proof. apply Layout_created_inv. Qed.

(** X4: a selected flow that the registry does not know makes the handler fail:
    the error is reported and no rule, not even one with the conditions and
    the earlier actions, reaches the store. *)
Lemma AddRule_unknown_flow {Argv} (F : Framework Argv) (now : Z)
    (request : Request) (fd : ForemanObject Argv) (i : nat) (name : string) :
  (i < 100)%nat →
  REQ_get request (fmt_index "flow_name_" i) = Some name →
  name ≠ "" →
  classes F !! name = None →
  is_error (AddForemanRuleAction_Layout F now request fd).2 = true
  ∧ (AddForemanRuleAction_Layout F now request fd).1 = fd.
Proof.
  intros Hi Hname Hne Hcls.
  assert (is_error (AddForemanRuleAction_Layout F now request fd).2 = true)
    as Herr; [|split; [done|by apply Layout_error_inv]].
  destruct (AddForemanRuleAction_Layout F now request fd) as [fd' r] eqn:Hrun.
  destruct r as [rule| | |]; try done; simpl.
  - apply Layout_created_inv in Hrun as (_ & _ & _ & _ & Hno & _).
    exfalso. apply (Hno i (KeyError name) Hi).
    unfold action_at, argv_at, classes_getitem. unfold REQ_get in Hname.
    rewrite Hname, bool_decide_eq_false_2, Hcls by done. done.
  - exfalso. revert Hrun.
    unfold AddForemanRuleAction_Layout, ErrorHandler,
      AddForemanRuleAction_Layout_body.
    destruct (REQ_getitem request "expires_text" ≫= ParseFromHumanReadable F);
      [done|].
    case_bool_decide; [done|].
    by destruct ((ParseRegexRules request;; ParseActionRules F request) _)
      as [? [?|?]].
Qed.

(** ** DeleteRule, for every request *)

(** X5: whatever the request, [DeleteRule] never adds, changes or reorders a
    rule: the collection it leaves is a sublist of the one it found, at most
    one rule shorter, and it writes at most once. *)
Lemma DeleteRule_only_removes {Argv} (request : Request)
    (fd : ForemanObject Argv) :
  let fd' := (DeleteRule_Layout request fd).1 in
  let old := default [] (RULES fd) in
  let new := default [] (RULES fd') in
  new `sublist_of` old
  ∧ (length old ≤ S (length new))%nat
  ∧ (journal fd' = journal fd ∨ journal fd' = journal fd ++ [new]).
Proof.
  cbv zeta. destruct (request_rule_id request) as [e|i] eqn:Hid.
  { unfold DeleteRule_Layout. rewrite Hid. simpl.
    split; [done|]. split; [lia|by left]. }
  rewrite (DeleteRule_Layout_unfold _ _ i) by done. cbn [fst].
  destruct (bool_decide (0 ≤ i)) eqn:Hpos;
    [|split; [done|]; split; [lia|by left]].
  destruct (RULES fd) as [rules|] eqn:Hrules;
    [|rewrite Hrules; split; [done|]; split; [simpl; lia|by left]].
  apply bool_decide_eq_true in Hpos. unfold enumerate. simpl.
  destruct (decide (i < Z.of_nat (length rules))) as [Hin|Hout].
  - rewrite delete_loop_inside by lia. rewrite Z.sub_0_r. simpl.
    split; [|split; [|by right]].
    + rewrite <- delete_take_drop. apply sublist_delete.
    + rewrite length_app, length_take, length_drop. lia.
  - rewrite delete_loop_outside by lia. simpl.
    split; [done|]. split; [lia|by right].
Qed.

(** X6: removing the position at which a rule has just been appended gives back
    the collection stored before the append. *)
Lemma AddRule_then_DeleteRule {Argv} (request : Request)
    (rule : ForemanRule Argv) (fd : ForemanObject Argv) :
  request_rule_id request
    = inr (Z.of_nat (length (default [] (RULES fd)))) →
  ∃ fd', DeleteRule_Layout request (AddRuleToForeman rule fd)
         = (fd', inr (RemovedRule (Z.of_nat (length (default [] (RULES fd))))))
         ∧ RULES fd' = Some (default [] (RULES fd)).
Proof.
  intros Hid. set (old := default [] (RULES fd)) in *.
  rewrite (DeleteRule_Layout_unfold _ _ (Z.of_nat (length old))) by done.
  rewrite bool_decide_eq_true_2 by lia.
  assert (RULES (AddRuleToForeman rule fd) = Some (old ++ [rule])) as ->.
  { unfold AddRuleToForeman, old. by destruct (RULES fd). }
  eexists. split; [reflexivity|]. simpl. f_equal.
  unfold enumerate.
  rewrite delete_loop_inside by (rewrite length_app; simpl; lia).
  rewrite Z.sub_0_r, Nat2Z.id. simpl.
  rewrite take_app_length.
  rewrite drop_app_ge by lia.
  replace (S (length old) - length old)%nat with 1%nat by lia.
  simpl. by rewrite app_nil_r.
Qed.

(** ** ParseRegexRules reads the first hundred indices only *)

Lemma omap_ext_in {A B} (f g : A → option B) (l : list A) :
  (∀ x, x ∈ l → f x = g x) → omap f l = omap g l.
Proof.
  induction l as [|x l IH]; intros Hfg; [done|]. csimpl.
  rewrite (Hfg x) by (apply elem_of_cons; by left).
  rewrite IH; [done|]. intros y Hy. apply Hfg, elem_of_cons. by right.
Qed.

(** X7: two requests whose condition parameters agree on the indices 0..99
    give the same rule: condition parameters with an index of 100 or more
    are silently ignored. *)
Lemma ParseRegexRules_first_hundred {Argv} (request1 request2 : Request)
    (rule : ForemanRule Argv) :
  (∀ i, (i < 100)%nat →
        condition_at request1 i = condition_at request2 i) →
  ParseRegexRules request1 rule = ParseRegexRules request2 rule.
Proof.
  intros Hagree. rewrite !ParseRegexRules_run.
  rewrite (omap_ext_in (condition_at request1) (condition_at request2));
    [done|].
  intros i Hi%elem_of_seq. apply Hagree. lia.
Qed.

(** ** Sequence indexing *)

Lemma list_getitem_nonneg {A} (l : list A) (i : Z) :
  0 ≤ i →
  list_getitem l i = match l !! Z.to_nat i with
                     | Some x => inr x
                     | None => inl IndexError
                     end.
Proof.
  intros Hi. unfold list_getitem. cbv zeta.
  rewrite (bool_decide_eq_false_2 (i < 0)) by lia.
  case_bool_decide as Hr; [done|].
  rewrite lookup_ge_None_2; [done|lia].
Qed.

Lemma list_getitem_negative {A} (l : list A) (i : Z) :
  i < 0 →
  list_getitem l i =
  if bool_decide (- Z.of_nat (length l) ≤ i)
  then match l !! Z.to_nat (Z.of_nat (length l) + i) with
       | Some x => inr x
       | None => inl IndexError
       end
  else inl IndexError.
Proof.
  intros Hi. unfold list_getitem. cbv zeta.
  rewrite (bool_decide_eq_true_2 (i < 0)) by lia.
  repeat case_bool_decide; try lia; try done.
  by rewrite Z.add_comm.
Qed.

Lemma list_getitem_out_of_range {A} (l : list A) (i : Z) :
  i < - Z.of_nat (length l) ∨ Z.of_nat (length l) ≤ i →
  list_getitem l i = inl IndexError.
Proof.
  intros Hi. unfold list_getitem. cbv zeta.
  destruct (bool_decide (i < 0)) eqn:Hneg.
  - apply bool_decide_eq_true in Hneg.
    by rewrite bool_decide_eq_false_2 by lia.
  - apply bool_decide_eq_false in Hneg.
    by rewrite bool_decide_eq_false_2 by lia.
Qed.

Lemma list_getitem_elem {A} (l : list A) (i : Z) (x : A) :
  list_getitem l i = inr x → x ∈ l.
Proof.
  unfold list_getitem. case_bool_decide; [|done].
  destruct (l !! _) eqn:Hl; [|done]. intros [= <-].
  by eapply list_elem_of_lookup_2.
Qed.

(** ** The defaults dictionary, key by key *)

Ltac key_neq :=
  unfold fmt_int, fmt_index; simpl; discriminate.

Lemma defaults_regex_from_cons (i0 : Z) (c : ForemanAttributeRegex)
    (rr : list ForemanAttributeRegex) (d : gmap string PyValue) :
  defaults_regex_from i0 (c :: rr) d
  = defaults_regex_from (i0 + 1) rr (regex_entry i0 c d).
Proof. reflexivity. Qed.

Lemma regex_entry_field (p : string) (get : ForemanAttributeRegex → string)
    (i j : Z) (c : ForemanAttributeRegex) (d : gmap string PyValue) :
  regex_field p get →
  regex_entry i c d !! fmt_int p j
  = if bool_decide (j = i) then Some (VStr (get c)) else d !! fmt_int p j.
Proof.
  intros Hfield. unfold regex_entry. case_bool_decide as Hj.
  - subst j. destruct Hfield;
      repeat first
        [ rewrite lookup_insert_eq; reflexivity
        | rewrite lookup_insert_ne by key_neq ].
  - destruct Hfield;
      repeat first
        [ rewrite lookup_insert_ne by key_neq
        | rewrite lookup_insert_ne by (intros ?%fmt_int_inj; congruence) ];
      reflexivity.
Qed.

Lemma regex_entry_other (k : string) (i : Z) (c : ForemanAttributeRegex)
    (d : gmap string PyValue) :
  k ≠ "rule_count" →
  (∀ p get j, regex_field p get → k ≠ fmt_int p j) →
  regex_entry i c d !! k = d !! k.
Proof.
  intros Hrc Hk. unfold regex_entry.
  rewrite !lookup_insert_ne; first done;
    first [ done | intros <-; by eapply Hk; [constructor|] ].
Qed.

Lemma defaults_regex_from_field (p : string)
    (get : ForemanAttributeRegex → string) :
  regex_field p get →
  ∀ (rr : list ForemanAttributeRegex) (i0 : Z) (d : gmap string PyValue)
    (j : Z),
    defaults_regex_from i0 rr d !! fmt_int p j
    = if bool_decide (i0 ≤ j)
      then match rr !! Z.to_nat (j - i0) with
           | Some c => Some (VStr (get c))
           | None => d !! fmt_int p j
           end
      else d !! fmt_int p j.
Proof.
  intros Hfield rr. induction rr as [|c rr IH]; intros i0 d j.
  { unfold defaults_regex_from. simpl. by case_bool_decide. }
  rewrite defaults_regex_from_cons, IH, (regex_entry_field p get) by done.
  destruct (decide (j = i0)) as [->|Hne].
  - rewrite bool_decide_eq_false_2 by lia.
    rewrite !bool_decide_eq_true_2 by lia.
    by rewrite Z.sub_diag.
  - rewrite (bool_decide_eq_false_2 (j = i0)) by done.
    case_bool_decide as H1; case_bool_decide as H2; try lia; [|done].
    replace (Z.to_nat (j - i0)) with (S (Z.to_nat (j - (i0 + 1)))) by lia.
    done.
Qed.

Lemma defaults_regex_from_other (k : string) :
  k ≠ "rule_count" →
  (∀ p get j, regex_field p get → k ≠ fmt_int p j) →
  ∀ (rr : list ForemanAttributeRegex) (i0 : Z) (d : gmap string PyValue),
    defaults_regex_from i0 rr d !! k = d !! k.
Proof.
  intros Hrc Hk rr. induction rr as [|c rr IH]; intros i0 d; [done|].
  rewrite defaults_regex_from_cons, IH. by apply regex_entry_other.
Qed.

Lemma defaults_regex_from_count (rr : list ForemanAttributeRegex) :
  ∀ (i0 : Z) (d : gmap string PyValue),
    defaults_regex_from i0 rr d !! "rule_count"
    = match rr with
      | [] => d !! "rule_count"
      | _ => Some (VInt (i0 + Z.of_nat (length rr)))
      end.
Proof.
  induction rr as [|c rr IH]; intros i0 d; [done|].
  rewrite defaults_regex_from_cons, IH. destruct rr as [|c' rr].
  - unfold regex_entry. by rewrite lookup_insert_eq.
  - do 2 f_equal. simpl length. lia.
Qed.

Lemma defaults_actions_from_flow_name {Argv}
    (acts : list (ForemanRuleAction Argv)) :
  ∀ (i0 : Z) (d : gmap string PyValue) (j : Z),
    defaults_actions_from i0 acts d !! fmt_int "flow_name_" j
    = if bool_decide (i0 ≤ j)
      then match acts !! Z.to_nat (j - i0) with
           | Some a => Some (VStr (flow_name a))
           | None => d !! fmt_int "flow_name_" j
           end
      else d !! fmt_int "flow_name_" j.
Proof.
  induction acts as [|a acts IH]; intros i0 d j.
  { unfold defaults_actions_from. simpl. by case_bool_decide. }
  unfold defaults_actions_from in *. cbn [enumerate_from foldl].
  rewrite IH. destruct (decide (j = i0)) as [->|Hne].
  - rewrite bool_decide_eq_false_2 by lia.
    rewrite bool_decide_eq_true_2 by lia.
    by rewrite Z.sub_diag, lookup_insert_eq.
  - rewrite lookup_insert_ne by (intros ?%fmt_int_inj; congruence).
    case_bool_decide as H1; case_bool_decide as H2; try lia; [|done].
    replace (Z.to_nat (j - i0)) with (S (Z.to_nat (j - (i0 + 1)))) by lia.
    done.
Qed.

Lemma defaults_actions_from_other {Argv} (k : string)
    (acts : list (ForemanRuleAction Argv)) :
  (∀ j, k ≠ fmt_int "flow_name_" j) →
  ∀ (i0 : Z) (d : gmap string PyValue),
    defaults_actions_from i0 acts d !! k = d !! k.
Proof.
  intros Hk. induction acts as [|a acts IH]; intros i0 d; [done|].
  unfold defaults_actions_from in *. cbn [enumerate_from foldl].
  rewrite IH. by rewrite lookup_insert_ne.
Qed.

(** ** BuildDefaults *)

Lemma base_defaults_lookup (cc ce : Z) :
  base_defaults cc ce !! "created" = Some (VInt cc)
  ∧ base_defaults cc ce !! "expires" = Some (VInt ce)
  ∧ base_defaults cc ce !! "rule_count" = Some (VInt 1)
  ∧ base_defaults cc ce !! "action_count" = Some (VInt 1)
  ∧ base_defaults cc ce !! "rule_id" = Some (VInt (-1))
  ∧ base_defaults cc ce !! "description" = None.
Proof.
  unfold base_defaults. cbn [list_to_map foldr fst snd uncurry].
  repeat split;
    repeat first [ rewrite lookup_insert_eq; reflexivity
                 | rewrite lookup_insert_ne by discriminate
                 | apply lookup_empty ].
Qed.

Lemma defaults_regex_rules_from (rr : list ForemanAttributeRegex)
    (d : gmap string PyValue) :
  defaults_regex_rules rr d = defaults_regex_from 0 rr d.
Proof. reflexivity. Qed.

Lemma defaults_actions_from_0 {Argv} (acts : list (ForemanRuleAction Argv))
    (d : gmap string PyValue) :
  defaults_actions acts d = defaults_actions_from 0 acts d.
Proof. reflexivity. Qed.

(** Keys that neither loop of [BuildDefaults] writes keep their value in
    the dictionary built for a rule. *)
Lemma rule_defaults_fixed {Argv} (cc ce n : Z) (rule : ForemanRule Argv) :
  rule_defaults cc ce n rule !! "created" = Some (VInt (created rule))
  ∧ rule_defaults cc ce n rule !! "expires" = Some (VInt (expires rule))
  ∧ rule_defaults cc ce n rule !! "description"
    = Some (VStr (description rule))
  ∧ rule_defaults cc ce n rule !! "rule_id" = Some (VInt n)
  ∧ rule_defaults cc ce n rule !! "action_count"
    = Some (VInt (Z.of_nat (length (actions rule)))).
Proof.
  unfold rule_defaults.
  rewrite defaults_regex_rules_from, defaults_actions_from_0.
  repeat split;
    try (rewrite lookup_insert_ne by discriminate;
         rewrite defaults_actions_from_other by (intros; key_neq);
         rewrite defaults_regex_from_other
           by first [ discriminate
                    | intros ??? Hf; destruct Hf; key_neq ]);
    repeat first [ rewrite lookup_insert_eq; reflexivity
                 | rewrite lookup_insert_ne by discriminate ].
Qed.

(** With a rule selected, [BuildDefaults] returns the dictionary built for
    that rule, completed by the two dates in readable form. *)
Lemma BuildDefaults_selected {Argv} (str : PyValue → string) (cc ce : Z)
    (request : Request) (fd : ForemanObject Argv) (s : string) (n : Z)
    (rules : list (ForemanRule Argv)) (rule : ForemanRule Argv) :
  REQ_get request "rule_id" = Some s →
  py_int s = inr n →
  RULES fd = Some rules →
  list_getitem rules n = inr rule →
  BuildDefaults str cc ce request fd
  = inr (with_texts str (VInt (created rule)) (VInt (expires rule))
           (rule_defaults cc ce n rule)).
Proof.
  intros Hreq Hint Hrules Hget. unfold BuildDefaults.
  rewrite Hreq, Hint, Hrules. cbv zeta.
  unfold mbind, pyresult_bind, mret, pyresult_ret, std.
  rewrite Hget. fold (base_defaults cc ce). fold (rule_defaults cc ce n rule).
  destruct (rule_defaults_fixed cc ce n rule) as (Hc & He & _).
  unfold dict_getitem. rewrite Hc.
  rewrite lookup_insert_ne by discriminate. by rewrite He.
Qed.

Lemma base_defaults_no_field (cc ce n : Z) (rule_created rule_expires : Z)
    (descr : string) (k : string) :
  k ≠ "description" → k ≠ "expires" → k ≠ "created" → k ≠ "rule_id" →
  k ≠ "rule_count" → k ≠ "action_count" →
  (<["description" := VStr descr]>
     (<["expires" := VInt rule_expires]>
        (<["created" := VInt rule_created]>
           (<["rule_id" := VInt n]> (base_defaults cc ce))))) !! k = None.
Proof.
  intros. unfold base_defaults. cbn [list_to_map foldr fst snd uncurry].
  rewrite !lookup_insert_ne by done. apply lookup_empty.
Qed.

Lemma rule_defaults_field {Argv} (cc ce n : Z) (rule : ForemanRule Argv)
    (p : string) (get : ForemanAttributeRegex → string) (j : nat) :
  regex_field p get →
  rule_defaults cc ce n rule !! fmt_index p j
  = (λ c, VStr (get c)) <$> regex_rules rule !! j.
Proof.
  intros Hfield. rewrite <- fmt_int_of_nat. unfold rule_defaults.
  rewrite defaults_regex_rules_from, defaults_actions_from_0.
  rewrite lookup_insert_ne by (destruct Hfield; key_neq).
  rewrite defaults_actions_from_other by (intros; destruct Hfield; key_neq).
  rewrite (defaults_regex_from_field p get) by done.
  rewrite bool_decide_eq_true_2 by lia.
  rewrite Z.sub_0_r, Nat2Z.id.
  destruct (regex_rules rule !! j); [done|]. simpl.
  apply base_defaults_no_field; destruct Hfield; key_neq.
Qed.

Lemma rule_defaults_flow_name {Argv} (cc ce n : Z) (rule : ForemanRule Argv)
    (j : nat) :
  rule_defaults cc ce n rule !! fmt_index "flow_name_" j
  = (λ a, VStr (flow_name a)) <$> actions rule !! j.
Proof.
  rewrite <- fmt_int_of_nat. unfold rule_defaults.
  rewrite defaults_regex_rules_from, defaults_actions_from_0.
  rewrite lookup_insert_ne by key_neq.
  rewrite defaults_actions_from_flow_name.
  rewrite bool_decide_eq_true_2 by lia.
  rewrite Z.sub_0_r, Nat2Z.id.
  destruct (actions rule !! j); [done|]. simpl.
  rewrite defaults_regex_from_other
    by first [ key_neq | intros ??? Hf; destruct Hf; key_neq ].
  apply base_defaults_no_field; key_neq.
Qed.

Lemma rule_defaults_rule_count {Argv} (cc ce n : Z) (rule : ForemanRule Argv) :
  rule_defaults cc ce n rule !! "rule_count"
  = Some (VInt (Z.max 1 (Z.of_nat (length (regex_rules rule))))).
Proof.
  unfold rule_defaults.
  rewrite defaults_regex_rules_from, defaults_actions_from_0.
  rewrite lookup_insert_ne by discriminate.
  rewrite defaults_actions_from_other by (intros; key_neq).
  rewrite defaults_regex_from_count.
  destruct (regex_rules rule) as [|c rr].
  - rewrite !lookup_insert_ne by discriminate.
    by destruct (base_defaults_lookup cc ce) as (_ & _ & -> & _).
  - do 2 f_equal. simpl length. lia.
Qed.

Lemma with_texts_lookup (str : PyValue → string) (cv ev : PyValue)
    (d : gmap string PyValue) (k : string) :
  k ≠ "created_text" → k ≠ "expires_text" →
  with_texts str cv ev d !! k = d !! k.
Proof. intros. unfold with_texts. by rewrite !lookup_insert_ne. Qed.

(** X8: without a rule to show (no rule_id in the request, or a rule_id but no
    stored collection) the defaults are those of a new rule: one condition
    row, one action row, the clock's dates, and the requested rule_id or -1;
    the store is not otherwise consulted. *)
Lemma BuildDefaults_without_rule {Argv} (str : PyValue → string) (cc ce : Z)
    (request : Request) (fd : ForemanObject Argv) (n : Z) :
  (REQ_get request "rule_id" = None ∧ n = -1)
  ∨ (∃ s, REQ_get request "rule_id" = Some s ∧ py_int s = inr n
          ∧ RULES fd = None) →
  BuildDefaults str cc ce request fd
  = inr (with_texts str (VInt cc) (VInt ce)
           (<["rule_id" := VInt n]> (base_defaults cc ce))).
Proof.
  destruct (base_defaults_lookup cc ce) as (Hc & He & _ & _ & Hid & _).
  intros [[Hreq ->]|(s & Hreq & Hint & Hrules)];
    unfold BuildDefaults; rewrite Hreq; cbv zeta;
    fold (base_defaults cc ce);
    unfold mbind, pyresult_bind, mret, pyresult_ret, std, dict_getitem.
  - rewrite Hc. rewrite lookup_insert_ne by discriminate. rewrite He.
    unfold with_texts. by rewrite (insert_id _ _ _ Hid).
  - rewrite Hint, Hrules.
    rewrite !lookup_insert_ne by discriminate. rewrite Hc.
    rewrite !lookup_insert_ne by discriminate. by rewrite He.
Qed.

(** X9: a rule_id that is no index of the stored collection makes
    [BuildDefaults] raise [IndexError]. *)
Lemma BuildDefaults_out_of_range {Argv} (str : PyValue → string) (cc ce : Z)
    (request : Request) (fd : ForemanObject Argv) (s : string) (n : Z)
    (rules : list (ForemanRule Argv)) :
  REQ_get request "rule_id" = Some s →
  py_int s = inr n →
  RULES fd = Some rules →
  n < - Z.of_nat (length rules) ∨ Z.of_nat (length rules) ≤ n →
  BuildDefaults str cc ce request fd = inl IndexError.
Proof.
  intros Hreq Hint Hrules Hout. unfold BuildDefaults.
  rewrite Hreq, Hint, Hrules. cbv zeta.
  unfold mbind, pyresult_bind, mret, pyresult_ret, std.
  by rewrite list_getitem_out_of_range.
Qed.

(** X10: for a selected rule the defaults carry, under the keys the form uses,
    the three fields of every condition of the rule and nothing under the
    keys of higher indices. *)
Lemma BuildDefaults_conditions {Argv} (str : PyValue → string) (cc ce : Z)
    (request : Request) (fd : ForemanObject Argv) (s : string) (n : Z)
    (rules : list (ForemanRule Argv)) (rule : ForemanRule Argv)
    (result : gmap string PyValue) :
  REQ_get request "rule_id" = Some s →
  py_int s = inr n →
  RULES fd = Some rules →
  list_getitem rules n = inr rule →
  BuildDefaults str cc ce request fd = inr result →
  ∀ (j : nat),
    result !! fmt_index "path_" j
      = (λ c, VStr (path c)) <$> regex_rules rule !! j
    ∧ result !! fmt_index "attribute_name_" j
      = (λ c, VStr (attribute_name c)) <$> regex_rules rule !! j
    ∧ result !! fmt_index "attribute_regex_" j
      = (λ c, VStr (attribute_regex c)) <$> regex_rules rule !! j.
Proof.
  intros Hreq Hint Hrules Hget Hrun j.
  rewrite (BuildDefaults_selected str cc ce request fd s n rules rule)
    in Hrun by done.
  injection Hrun as <-.
  rewrite !with_texts_lookup by key_neq.
  split; [|split]; apply rule_defaults_field; constructor.
Qed.

(** X11: for a selected rule the defaults carry the flow name of every action of
    the rule, the number of its actions (zero included), the number of its
    conditions (but 1 when it has none), its dates and its description. *)
Lemma BuildDefaults_actions_and_counts {Argv} (str : PyValue → string)
    (cc ce : Z) (request : Request) (fd : ForemanObject Argv) (s : string)
    (n : Z) (rules : list (ForemanRule Argv)) (rule : ForemanRule Argv)
    (result : gmap string PyValue) :
  REQ_get request "rule_id" = Some s →
  py_int s = inr n →
  RULES fd = Some rules →
  list_getitem rules n = inr rule →
  BuildDefaults str cc ce request fd = inr result →
  (∀ j : nat, result !! fmt_index "flow_name_" j
              = (λ a, VStr (flow_name a)) <$> actions rule !! j)
  ∧ result !! "action_count"
    = Some (VInt (Z.of_nat (length (actions rule))))
  ∧ result !! "rule_count"
    = Some (VInt (Z.max 1 (Z.of_nat (length (regex_rules rule)))))
  ∧ result !! "rule_id" = Some (VInt n)
  ∧ result !! "created" = Some (VInt (created rule))
  ∧ result !! "expires" = Some (VInt (expires rule))
  ∧ result !! "description" = Some (VStr (description rule))
  ∧ result !! "created_text" = Some (VStr (str (VInt (created rule))))
  ∧ result !! "expires_text" = Some (VStr (str (VInt (expires rule)))).
Proof.
  intros Hreq Hint Hrules Hget Hrun.
  rewrite (BuildDefaults_selected str cc ce request fd s n rules rule)
    in Hrun by done.
  injection Hrun as <-.
  destruct (rule_defaults_fixed cc ce n rule) as (Hc & He & Hd & Hid & Hac).
  split; [intros j; rewrite with_texts_lookup by key_neq;
          apply rule_defaults_flow_name|].
  rewrite !with_texts_lookup by discriminate.
  split; [done|]. split; [apply rule_defaults_rule_count|].
  split; [done|]. split; [done|]. split; [done|]. split; [done|].
  unfold with_texts. split.
  - rewrite lookup_insert_ne by discriminate. by rewrite lookup_insert_eq.
  - by rewrite lookup_insert_eq.
Qed.

Lemma omap_lookup_seq {A} (l : list A) :
  ∀ (i0 n : nat), omap (λ i, l !! i) (seq i0 n) = take n (drop i0 l).
Proof.
  intros i0 n. revert i0. induction n as [|n IH]; intros i0; [done|].
  csimpl. rewrite IH. destruct (l !! i0) as [x|] eqn:Hx.
  - by rewrite (drop_S l x i0 Hx).
  - apply lookup_ge_None in Hx.
    rewrite !drop_ge by lia. by rewrite !take_nil.
Qed.

(** X12: round trip through the edit form: when the condition fields of a
    request are the ones [BuildDefaults] produced for a stored rule with at
    most a hundred conditions, [ParseRegexRules] reads back exactly the
    conditions of that rule, in order. *)
Lemma BuildDefaults_ParseRegexRules {Argv} (str : PyValue → string)
    (cc ce : Z) (request : Request) (fd : ForemanObject Argv) (s : string)
    (n : Z) (rules : list (ForemanRule Argv)) (rule : ForemanRule Argv)
    (result : gmap string PyValue) (request' : Request)
    (rule0 : ForemanRule Argv) :
  REQ_get request "rule_id" = Some s →
  py_int s = inr n →
  RULES fd = Some rules →
  list_getitem rules n = inr rule →
  BuildDefaults str cc ce request fd = inr result →
  (length (regex_rules rule) ≤ 100)%nat →
  (∀ j : nat,
     REQ request' !! fmt_index "path_" j
       = form_value <$> result !! fmt_index "path_" j
     ∧ REQ request' !! fmt_index "attribute_name_" j
       = form_value <$> result !! fmt_index "attribute_name_" j
     ∧ REQ request' !! fmt_index "attribute_regex_" j
       = form_value <$> result !! fmt_index "attribute_regex_" j) →
  ParseRegexRules request' rule0
  = (with_regex_rules rule0 (regex_rules rule0 ++ regex_rules rule), inr tt).
Proof.
  intros Hreq Hint Hrules Hget Hrun Hlen Hform.
  assert (∀ j, condition_at request' j = regex_rules rule !! j) as Hcond.
  { intros j. unfold condition_at.
    destruct (Hform j) as (-> & -> & ->).
    rewrite (BuildDefaults_selected str cc ce request fd s n rules rule)
      in Hrun by done.
    injection Hrun as <-.
    rewrite !with_texts_lookup by key_neq.
    rewrite (rule_defaults_field cc ce n rule "path_" path) by constructor.
    rewrite (rule_defaults_field cc ce n rule "attribute_name_"
               attribute_name) by constructor.
    rewrite (rule_defaults_field cc ce n rule "attribute_regex_"
               attribute_regex) by constructor.
    by destruct (regex_rules rule !! j) as [[]|]. }
  rewrite ParseRegexRules_run.
  rewrite (omap_ext_in _ (λ j, regex_rules rule !! j)) by (intros; apply Hcond).
  rewrite omap_lookup_seq, drop_0, take_ge by lia. done.
Qed.

(** ** RenderFlowForm.Layout *)

Lemma stored_fields_cons {V} (action_argv : gmap string V)
    (desc field : string) (value default_ : V)
    (args : list (string * string * V * V)) :
  stored_fields action_argv ((desc, field, value, default_) :: args)
  = match action_argv !! desc with
    | None => inl (Std (KeyError desc))
    | Some v =>
        match stored_fields action_argv args with
        | inr fields => inr ((desc, field, v, default_) :: fields)
        | inl e => inl e
        end
    end.
Proof.
  unfold stored_fields. cbn [mapM].
  unfold mbind at 1, pyresult_bind at 1, dict_getitem at 1.
  destruct (action_argv !! desc); [|done].
  unfold mbind at 1, pyresult_bind at 1, mret, pyresult_ret.
  unfold mbind at 1, pyresult_bind at 1.
  by destruct (mapM _ args).
Qed.

(** Each field the loop produces keeps the name, the form field and the
    default of its argument and carries the stored value of that argument. *)
Lemma stored_fields_inr {V} (action_argv : gmap string V)
    (args fields : list (string * string * V * V)) :
  stored_fields action_argv args = inr fields →
  Forall2 (λ '(desc, field, _, default_) f,
             ∃ v, action_argv !! desc = Some v
                  ∧ f = (desc, field, v, default_)) args fields.
Proof.
  revert fields. induction args as [|[[[desc field] value] default_] args IH];
    intros fields.
  { intros [= <-]. constructor. }
  rewrite stored_fields_cons.
  destruct (action_argv !! desc) as [v|] eqn:Hv; [|done].
  destruct (stored_fields action_argv args) as [e|fields']; [done|].
  intros [= <-]. constructor; [eauto|by apply IH].
Qed.

(** An argument without a stored value makes the loop raise [KeyError]
    for a missing argument. *)
Lemma stored_fields_missing {V} (action_argv : gmap string V)
    (args : list (string * string * V * V)) (a : string * string * V * V) :
  a ∈ args → action_argv !! a.1.1.1 = None →
  ∃ desc, stored_fields action_argv args = inl (Std (KeyError desc))
          ∧ action_argv !! desc = None.
Proof.
  induction args as [|[[[desc field] value] default_] args IH];
    [by intros ?%elem_of_nil|].
  intros [->|Hin]%elem_of_cons Hmiss; rewrite stored_fields_cons.
  - simpl in Hmiss. rewrite Hmiss. eauto.
  - destruct (action_argv !! desc) as [v|] eqn:Hv; [|eauto].
    destruct (IH Hin Hmiss) as (desc' & -> & Hd). eauto.
Qed.

Lemma stored_fields_all {V} (action_argv : gmap string V)
    (args : list (string * string * V * V)) :
  (∀ a, a ∈ args → is_Some (action_argv !! a.1.1.1)) →
  ∃ fields, stored_fields action_argv args = inr fields.
Proof.
  induction args as [|[[[desc field] value] default_] args IH]; intros Hall.
  { by exists []. }
  rewrite stored_fields_cons.
  destruct (Hall (desc, field, value, default_)) as [v Hv];
    [apply elem_of_cons; by left|].
  simpl in Hv. rewrite Hv.
  destruct IH as [fields ->]; [|eauto].
  intros a Ha. apply Hall, elem_of_cons. by right.
Qed.

Ltac unfold_flow_form :=
  unfold RenderFlowForm_Layout, form_classes_getitem, dict_getitem;
  cbv zeta;
  unfold mbind, pyresult_bind, mret, pyresult_ret, fmap, pyresult_fmap, std,
    except_IndexError.

(** X13: without a rule_id in the request no branch assigns [args], and the
    handler raises [UnboundLocalError] instead of rendering a form. *)
Lemma RenderFlowForm_no_rule_id {Argv V} (F : FormFramework Argv V)
    (request : Request) (fd : ForemanObject Argv) (k : Z) :
  REQ_get request "rule_id" = None →
  request_action_id request = inr k →
  RenderFlowForm_Layout F request fd = inl (UnboundLocalError "args").
Proof. intros Hreq Hk. unfold_flow_form. by rewrite Hk, Hreq. Qed.

(** X14: when the rule index is no index of the stored collection, or the action
    index no index of the selected rule's actions, the [IndexError] is
    caught and the form is rendered without fields. *)
Lemma RenderFlowForm_index_error {Argv V} (F : FormFramework Argv V)
    (request : Request) (fd : ForemanObject Argv) (s : string) (n k : Z)
    (rules : list (ForemanRule Argv)) :
  REQ_get request "rule_id" = Some s →
  py_int s = inr n →
  request_action_id request = inr k →
  RULES fd = Some rules →
  (n < - Z.of_nat (length rules) ∨ Z.of_nat (length rules) ≤ n)
  ∨ (∃ rule, list_getitem rules n = inr rule
             ∧ (k < - Z.of_nat (length (actions rule))
                ∨ Z.of_nat (length (actions rule)) ≤ k)) →
  RenderFlowForm_Layout F request fd
  = inr (mkFlowForm (default "ListDirectory" (REQ_get request "flow")) k []).
Proof.
  intros Hreq Hint Hk Hrules Hout. unfold_flow_form.
  rewrite Hk, Hreq, Hint, Hrules.
  destruct Hout as [Hn|(rule & Hrule & Hact)].
  - by rewrite list_getitem_out_of_range.
  - rewrite Hrule. by rewrite list_getitem_out_of_range.
Qed.

(** X15: when the stored action already runs the requested flow and every
    argument of the flow has a stored value, the form shows the arguments of
    the flow, in order, each with its stored value in place of the value
    [GetArgs] read from the request. *)
Lemma RenderFlowForm_stored_values {Argv V} (F : FormFramework Argv V)
    (request : Request) (fd : ForemanObject Argv) (s : string) (n k : Z)
    (rules : list (ForemanRule Argv)) (rule : ForemanRule Argv)
    (action : ForemanRuleAction Argv) (action_argv : gmap string V)
    (cls : form_FlowClass F) (args : list (string * string * V * V)) :
  REQ_get request "rule_id" = Some s →
  py_int s = inr n →
  request_action_id request = inr k →
  RULES fd = Some rules →
  list_getitem rules n = inr rule →
  list_getitem (actions rule) k = inr action →
  flow_name action = default "ListDirectory" (REQ_get request "flow") →
  ProtoDict_ToDict F (argv action) = inr action_argv →
  form_classes F !! flow_name action = Some cls →
  form_GetArgs F cls request (fmt_int "v_%s_" k) = inr args →
  (∀ a, a ∈ args → is_Some (action_argv !! a.1.1.1)) →
  ∃ fields,
    RenderFlowForm_Layout F request fd
    = inr (mkFlowForm (flow_name action) k fields)
    ∧ Forall2 (λ '(desc, field, _, default_) f,
                 ∃ v, action_argv !! desc = Some v
                      ∧ f = (desc, field, v, default_)) args fields.
Proof.
  intros Hreq Hint Hk Hrules Hrule Hact Hflow Hdict Hcls Hargs Hall.
  destruct (stored_fields_all action_argv args Hall) as [fields Hfields].
  exists fields. split; [|by apply stored_fields_inr].
  unfold_flow_form.
  rewrite Hk, Hreq, Hint, Hrules, Hrule, Hact.
  rewrite bool_decide_eq_true_2 by done.
  rewrite Hdict, Hcls, Hargs, Hfields. by rewrite Hflow.
Qed.

(** X16: when the stored action runs the requested flow but one argument of the
    flow has no stored value, the handler raises [KeyError] for a missing
    argument instead of rendering. *)
Lemma RenderFlowForm_missing_value {Argv V} (F : FormFramework Argv V)
    (request : Request) (fd : ForemanObject Argv) (s : string) (n k : Z)
    (rules : list (ForemanRule Argv)) (rule : ForemanRule Argv)
    (action : ForemanRuleAction Argv) (action_argv : gmap string V)
    (cls : form_FlowClass F) (args : list (string * string * V * V))
    (a : string * string * V * V) :
  REQ_get request "rule_id" = Some s →
  py_int s = inr n →
  request_action_id request = inr k →
  RULES fd = Some rules →
  list_getitem rules n = inr rule →
  list_getitem (actions rule) k = inr action →
  flow_name action = default "ListDirectory" (REQ_get request "flow") →
  ProtoDict_ToDict F (argv action) = inr action_argv →
  form_classes F !! flow_name action = Some cls →
  form_GetArgs F cls request (fmt_int "v_%s_" k) = inr args →
  a ∈ args → action_argv !! a.1.1.1 = None →
  ∃ desc, RenderFlowForm_Layout F request fd = inl (Std (KeyError desc))
          ∧ action_argv !! desc = None.
Proof.
  intros Hreq Hint Hk Hrules Hrule Hact Hflow Hdict Hcls Hargs Ha Hmiss.
  destruct (stored_fields_missing action_argv args a Ha Hmiss)
    as (desc & Hfields & Hdesc).
  exists desc. split; [|done].
  unfold_flow_form.
  rewrite Hk, Hreq, Hint, Hrules, Hrule, Hact.
  rewrite bool_decide_eq_true_2 by done.
  by rewrite Hdict, Hcls, Hargs, Hfields.
Qed.

(** X17: when nothing is stored, or when the stored action runs another flow
    than the requested one, the form shows the arguments of the requested
    flow as [GetArgs] returns them; the stored arguments are not read. *)
Lemma RenderFlowForm_requested_flow {Argv V} (F : FormFramework Argv V)
    (request : Request) (fd : ForemanObject Argv) (s : string) (n k : Z)
    (cls : form_FlowClass F) (args : list (string * string * V * V)) :
  REQ_get request "rule_id" = Some s →
  py_int s = inr n →
  request_action_id request = inr k →
  RULES fd = None
  ∨ (∃ rules rule action,
       RULES fd = Some rules
       ∧ list_getitem rules n = inr rule
       ∧ list_getitem (actions rule) k = inr action
       ∧ flow_name action ≠ default "ListDirectory" (REQ_get request "flow")) →
  form_classes F !! default "ListDirectory" (REQ_get request "flow")
    = Some cls →
  form_GetArgs F cls request (fmt_int "v_%s_" k) = inr args →
  RenderFlowForm_Layout F request fd
  = inr (mkFlowForm (default "ListDirectory" (REQ_get request "flow")) k args).
Proof.
  intros Hreq Hint Hk Hcase Hcls Hargs. unfold_flow_form.
  rewrite Hk, Hreq, Hint.
  destruct Hcase as [->|(rules & rule & action & -> & Hrule & Hact & Hne)].
  - by rewrite Hcls, Hargs.
  - rewrite Hrule, Hact. rewrite bool_decide_eq_false_2 by done.
    by rewrite Hcls, Hargs.
Qed.

(** * Concrete runs of the further properties *)

Lemma AddRule_error_no_write_witness :
  is_error (AddForemanRuleAction_Layout demo_framework boundary_now
              bad_form_request stored_three).2 = true
  ∧ (AddForemanRuleAction_Layout demo_framework boundary_now
       bad_form_request stored_three).1 = stored_three.
Proof.
  assert (is_error (AddForemanRuleAction_Layout demo_framework boundary_now
                      bad_form_request stored_three).2 = true) as H1
    by (vm_compute; reflexivity).
  split; [exact H1|].
  exact (AddRule_error_no_write demo_framework boundary_now bad_form_request
           stored_three H1).
Defined.

Lemma AddRule_missing_expires_witness :
  REQ_get empty_request "expires_text" = None
  ∧ AddForemanRuleAction_Layout demo_framework boundary_now empty_request
      stored_three
    = (stored_three, ServerError (KeyError "expires_text")).
Proof.
  assert (REQ_get empty_request "expires_text" = None) as H1 by reflexivity.
  split; [exact H1|].
  exact (AddRule_missing_expires demo_framework boundary_now empty_request
           stored_three H1).
Defined.

Lemma AddRule_created_rule_witness :
  AddForemanRuleAction_Layout demo_framework boundary_now boundary_request
    nothing_stored
  = (mkForeman (Some [boundary_rule]) [[boundary_rule]],
     CreatedRule boundary_rule)
  ∧ ∃ expire_date,
      request_expires demo_framework boundary_request = inr expire_date
      ∧ boundary_now ≤ expire_date
      ∧ boundary_rule
        = mkRule (default "" (REQ_get boundary_request "description"))
                 boundary_now expire_date
                 (omap (condition_at boundary_request) (seq 0 100))
                 (omap (added_at demo_framework boundary_request) (seq 0 100))
      ∧ (∀ i e, (i < 100)%nat →
                action_at demo_framework boundary_request i ≠ Raise e)
      ∧ RULES (mkForeman (Some [boundary_rule]) [[boundary_rule]])
        = Some (default [] (RULES nothing_stored) ++ [boundary_rule])
      ∧ journal (mkForeman (Some [boundary_rule]) [[boundary_rule]])
        = journal nothing_stored
          ++ [default [] (RULES nothing_stored) ++ [boundary_rule]].
Proof.
  assert (AddForemanRuleAction_Layout demo_framework boundary_now
            boundary_request nothing_stored
          = (mkForeman (Some [boundary_rule]) [[boundary_rule]],
             CreatedRule boundary_rule)) as H1
    by (vm_compute; reflexivity).
  split; [exact H1|].
  exact (AddRule_created_rule demo_framework boundary_now boundary_request
           nothing_stored _ boundary_rule H1).
Defined.

Lemma AddRule_unknown_flow_witness :
  (2 < 100)%nat
  ∧ REQ_get bad_form_request (fmt_index "flow_name_" 2) = Some "NoSuchFlow"
  ∧ "NoSuchFlow" ≠ ""
  ∧ classes demo_framework !! "NoSuchFlow" = None
  ∧ is_error (AddForemanRuleAction_Layout demo_framework boundary_now
                bad_form_request stored_three).2 = true
  ∧ (AddForemanRuleAction_Layout demo_framework boundary_now
       bad_form_request stored_three).1 = stored_three.
Proof.
  assert (2 < 100)%nat as H1 by lia.
  assert (REQ_get bad_form_request (fmt_index "flow_name_" 2)
          = Some "NoSuchFlow") as H2 by (vm_compute; reflexivity).
  assert ("NoSuchFlow" ≠ "") as H3 by discriminate.
  assert (classes demo_framework !! "NoSuchFlow" = None) as H4
    by (vm_compute; reflexivity).
  split; [exact H1|]. split; [exact H2|]. split; [exact H3|].
  split; [exact H4|].
  exact (AddRule_unknown_flow demo_framework boundary_now bad_form_request
           stored_three 2 "NoSuchFlow" H1 H2 H3 H4).
Defined.

Lemma AddRule_then_DeleteRule_witness :
  request_rule_id (delete_request "3")
    = inr (Z.of_nat (length (default [] (RULES stored_three))))
  ∧ ∃ fd', DeleteRule_Layout (delete_request "3")
             (AddRuleToForeman rule_D stored_three)
           = (fd', inr (RemovedRule
                          (Z.of_nat (length (default [] (RULES stored_three))))))
           ∧ RULES fd' = Some (default [] (RULES stored_three)).
Proof.
  assert (request_rule_id (delete_request "3")
          = inr (Z.of_nat (length (default [] (RULES stored_three))))) as H1
    by (vm_compute; reflexivity).
  split; [exact H1|].
  exact (AddRule_then_DeleteRule (delete_request "3") rule_D stored_three H1).
Defined.

Lemma ParseRegexRules_first_hundred_witness :
  (∀ i, (i < 100)%nat →
        condition_at form_request i = condition_at long_form_request i)
  ∧ ParseRegexRules form_request blank_rule
    = ParseRegexRules long_form_request blank_rule.
Proof.
  assert (∀ i, (i < 100)%nat →
               condition_at form_request i = condition_at long_form_request i)
    as H1.
  { intros i Hi. unfold condition_at, long_form_request. cbn [REQ].
    assert (∀ p, p +:+ "100" = fmt_index p 100) as E100 by reflexivity.
    assert (∀ p, fmt_index p i ≠ fmt_index p 100) as Hne
      by (intros p ?%fmt_index_inj; lia).
    change "path_100" with ("path_" +:+ "100").
    change "attribute_name_100" with ("attribute_name_" +:+ "100").
    change "attribute_regex_100" with ("attribute_regex_" +:+ "100").
    rewrite !E100.
    repeat first [ rewrite lookup_insert_ne by apply not_eq_sym, Hne
                 | rewrite lookup_insert_ne by (apply not_eq_sym; key_neq) ].
    reflexivity. }
  split; [exact H1|].
  exact (ParseRegexRules_first_hundred form_request long_form_request
           blank_rule H1).
Defined.

Lemma BuildDefaults_without_rule_witness :
  ((REQ_get empty_request "rule_id" = None ∧ -1 = -1)
   ∨ (∃ s, REQ_get empty_request "rule_id" = Some s ∧ py_int s = inr (-1)
           ∧ RULES stored_three = None))
  ∧ BuildDefaults demo_str 7 8 empty_request stored_three
    = inr (with_texts demo_str (VInt 7) (VInt 8)
             (<["rule_id" := VInt (-1)]> (base_defaults 7 8))).
Proof.
  assert ((REQ_get empty_request "rule_id" = None ∧ -1 = -1)
          ∨ (∃ s, REQ_get empty_request "rule_id" = Some s
                  ∧ py_int s = inr (-1) ∧ RULES stored_three = None)) as H1
    by (left; split; reflexivity).
  split; [exact H1|].
  exact (BuildDefaults_without_rule demo_str 7 8 empty_request stored_three
           (-1) H1).
Defined.

Lemma BuildDefaults_out_of_range_witness :
  REQ_get (delete_request "7") "rule_id" = Some "7"
  ∧ py_int "7" = inr 7
  ∧ RULES stored_three = Some [rule_A; rule_B; rule_C]
  ∧ (7 < - Z.of_nat (length [rule_A; rule_B; rule_C])
     ∨ Z.of_nat (length [rule_A; rule_B; rule_C]) ≤ 7)
  ∧ BuildDefaults demo_str 7 8 (delete_request "7") stored_three
    = inl IndexError.
Proof.
  assert (REQ_get (delete_request "7") "rule_id" = Some "7") as H1
    by (vm_compute; reflexivity).
  assert (py_int "7" = inr 7) as H2 by (vm_compute; reflexivity).
  assert (RULES stored_three = Some [rule_A; rule_B; rule_C]) as H3
    by reflexivity.
  assert (7 < - Z.of_nat (length [rule_A; rule_B; rule_C])
          ∨ Z.of_nat (length [rule_A; rule_B; rule_C]) ≤ 7) as H4
    by (right; simpl; lia).
  split; [exact H1|]. split; [exact H2|]. split; [exact H3|].
  split; [exact H4|].
  exact (BuildDefaults_out_of_range demo_str 7 8 (delete_request "7")
           stored_three "7" 7 _ H1 H2 H3 H4).
Defined.

Lemma select_rule_B :
  REQ_get (delete_request "1") "rule_id" = Some "1"
  ∧ py_int "1" = inr 1
  ∧ RULES stored_three = Some [rule_A; rule_B; rule_C]
  ∧ list_getitem [rule_A; rule_B; rule_C] 1 = inr rule_B
  ∧ BuildDefaults demo_str 7 8 (delete_request "1") stored_three
    = inr defaults_B.
Proof.
  assert (REQ_get (delete_request "1") "rule_id" = Some "1") as H1
    by (vm_compute; reflexivity).
  assert (py_int "1" = inr 1) as H2 by (vm_compute; reflexivity).
  assert (RULES stored_three = Some [rule_A; rule_B; rule_C]) as H3
    by reflexivity.
  assert (list_getitem [rule_A; rule_B; rule_C] 1 = inr rule_B) as H4
    by (vm_compute; reflexivity).
  split; [exact H1|]. split; [exact H2|]. split; [exact H3|].
  split; [exact H4|].
  exact (BuildDefaults_selected demo_str 7 8 (delete_request "1")
           stored_three "1" 1 _ rule_B H1 H2 H3 H4).
Defined.

Lemma BuildDefaults_conditions_witness :
  (REQ_get (delete_request "1") "rule_id" = Some "1"
   ∧ py_int "1" = inr 1
   ∧ RULES stored_three = Some [rule_A; rule_B; rule_C]
   ∧ list_getitem [rule_A; rule_B; rule_C] 1 = inr rule_B
   ∧ BuildDefaults demo_str 7 8 (delete_request "1") stored_three
     = inr defaults_B)
  ∧ ∀ (j : nat),
      defaults_B !! fmt_index "path_" j
        = (λ c, VStr (path c)) <$> regex_rules rule_B !! j
      ∧ defaults_B !! fmt_index "attribute_name_" j
        = (λ c, VStr (attribute_name c)) <$> regex_rules rule_B !! j
      ∧ defaults_B !! fmt_index "attribute_regex_" j
        = (λ c, VStr (attribute_regex c)) <$> regex_rules rule_B !! j.
Proof.
  split; [exact select_rule_B|].
  destruct select_rule_B as (H1 & H2 & H3 & H4 & H5).
  exact (BuildDefaults_conditions demo_str 7 8 (delete_request "1")
           stored_three "1" 1 _ rule_B defaults_B H1 H2 H3 H4 H5).
Defined.

Lemma BuildDefaults_actions_and_counts_witness :
  (REQ_get (delete_request "1") "rule_id" = Some "1"
   ∧ py_int "1" = inr 1
   ∧ RULES stored_three = Some [rule_A; rule_B; rule_C]
   ∧ list_getitem [rule_A; rule_B; rule_C] 1 = inr rule_B
   ∧ BuildDefaults demo_str 7 8 (delete_request "1") stored_three
     = inr defaults_B)
  ∧ defaults_B !! "action_count" = Some (VInt 1)
  ∧ defaults_B !! "rule_count" = Some (VInt 1)
  ∧ defaults_B !! "rule_id" = Some (VInt 1).
Proof.
  split; [exact select_rule_B|].
  destruct select_rule_B as (H1 & H2 & H3 & H4 & H5).
  destruct (BuildDefaults_actions_and_counts demo_str 7 8
              (delete_request "1") stored_three "1" 1 _ rule_B defaults_B
              H1 H2 H3 H4 H5) as (_ & Hac & Hrc & Hid & _).
  split; [exact Hac|]. split; [exact Hrc|]. exact Hid.
Defined.

Lemma BuildDefaults_ParseRegexRules_witness :
  (REQ_get (delete_request "1") "rule_id" = Some "1"
   ∧ py_int "1" = inr 1
   ∧ RULES stored_three = Some [rule_A; rule_B; rule_C]
   ∧ list_getitem [rule_A; rule_B; rule_C] 1 = inr rule_B
   ∧ BuildDefaults demo_str 7 8 (delete_request "1") stored_three
     = inr defaults_B)
  ∧ (length (regex_rules rule_B) ≤ 100)%nat
  ∧ (∀ j : nat,
       REQ resubmit_B !! fmt_index "path_" j
         = form_value <$> defaults_B !! fmt_index "path_" j
       ∧ REQ resubmit_B !! fmt_index "attribute_name_" j
         = form_value <$> defaults_B !! fmt_index "attribute_name_" j
       ∧ REQ resubmit_B !! fmt_index "attribute_regex_" j
         = form_value <$> defaults_B !! fmt_index "attribute_regex_" j)
  ∧ ParseRegexRules resubmit_B blank_rule
    = (with_regex_rules blank_rule
         (regex_rules blank_rule ++ regex_rules rule_B), inr tt).
Proof.
  split; [exact select_rule_B|].
  destruct select_rule_B as (H1 & H2 & H3 & H4 & H5).
  assert (length (regex_rules rule_B) ≤ 100)%nat as H6 by (simpl; lia).
  assert (∀ j : nat,
       REQ resubmit_B !! fmt_index "path_" j
         = form_value <$> defaults_B !! fmt_index "path_" j
       ∧ REQ resubmit_B !! fmt_index "attribute_name_" j
         = form_value <$> defaults_B !! fmt_index "attribute_name_" j
       ∧ REQ resubmit_B !! fmt_index "attribute_regex_" j
         = form_value <$> defaults_B !! fmt_index "attribute_regex_" j) as H7.
  { intros j. unfold resubmit_B. cbn [REQ].
    repeat split; apply lookup_fmap. }
  split; [exact H6|]. split; [exact H7|].
  exact (BuildDefaults_ParseRegexRules demo_str 7 8 (delete_request "1")
           stored_three "1" 1 _ rule_B defaults_B resubmit_B blank_rule
           H1 H2 H3 H4 H5 H6 H7).
Defined.

Lemma RenderFlowForm_no_rule_id_witness :
  REQ_get empty_request "rule_id" = None
  ∧ request_action_id empty_request = inr 0
  ∧ RenderFlowForm_Layout demo_form_framework empty_request stored_flows
    = inl (UnboundLocalError "args").
Proof.
  assert (REQ_get empty_request "rule_id" = None) as H1 by reflexivity.
  assert (request_action_id empty_request = inr 0) as H2 by reflexivity.
  split; [exact H1|]. split; [exact H2|].
  exact (RenderFlowForm_no_rule_id demo_form_framework empty_request
           stored_flows 0 H1 H2).
Defined.

Lemma RenderFlowForm_index_error_witness :
  REQ_get (flow_form_request "7" "0" "ListDirectory") "rule_id" = Some "7"
  ∧ py_int "7" = inr 7
  ∧ request_action_id (flow_form_request "7" "0" "ListDirectory") = inr 0
  ∧ RULES stored_flows = Some [rule_A; rule_D]
  ∧ ((7 < - Z.of_nat (length [rule_A; rule_D])
      ∨ Z.of_nat (length [rule_A; rule_D]) ≤ 7)
     ∨ (∃ rule, list_getitem [rule_A; rule_D] 7 = inr rule
                ∧ (0 < - Z.of_nat (length (actions rule))
                   ∨ Z.of_nat (length (actions rule)) ≤ 0)))
  ∧ RenderFlowForm_Layout demo_form_framework
      (flow_form_request "7" "0" "ListDirectory") stored_flows
    = inr (mkFlowForm "ListDirectory" 0 []).
Proof.
  assert (REQ_get (flow_form_request "7" "0" "ListDirectory") "rule_id"
          = Some "7") as H1 by (vm_compute; reflexivity).
  assert (py_int "7" = inr 7) as H2 by (vm_compute; reflexivity).
  assert (request_action_id (flow_form_request "7" "0" "ListDirectory")
          = inr 0) as H3 by (vm_compute; reflexivity).
  assert (RULES stored_flows = Some [rule_A; rule_D]) as H4 by reflexivity.
  assert ((7 < - Z.of_nat (length [rule_A; rule_D])
           ∨ Z.of_nat (length [rule_A; rule_D]) ≤ 7)
          ∨ (∃ rule, list_getitem [rule_A; rule_D] 7 = inr rule
                     ∧ (0 < - Z.of_nat (length (actions rule))
                        ∨ Z.of_nat (length (actions rule)) ≤ 0))) as H5
    by (left; right; simpl; lia).
  split; [exact H1|]. split; [exact H2|]. split; [exact H3|].
  split; [exact H4|]. split; [exact H5|].
  assert (default "ListDirectory"
            (REQ_get (flow_form_request "7" "0" "ListDirectory") "flow")
          = "ListDirectory") as E by (vm_compute; reflexivity).
  rewrite <- E at 2.
  exact (RenderFlowForm_index_error demo_form_framework
           (flow_form_request "7" "0" "ListDirectory") stored_flows "7" 7 0
           _ H1 H2 H3 H4 H5).
Defined.

Lemma RenderFlowForm_stored_values_witness :
  let request := flow_form_request "1" "0" "ListDirectory" in
  let action := mkAction "ListDirectory" [("path", "/tmp")] in
  let action_argv : gmap string string := {[ "path" := "/tmp" ]} in
  let args := [("path", "v_path_0", "", "")] in
  (REQ_get request "rule_id" = Some "1"
   ∧ py_int "1" = inr 1
   ∧ request_action_id request = inr 0
   ∧ RULES stored_flows = Some [rule_A; rule_D]
   ∧ list_getitem [rule_A; rule_D] 1 = inr rule_D
   ∧ list_getitem (actions rule_D) 0 = inr action
   ∧ flow_name action = default "ListDirectory" (REQ_get request "flow")
   ∧ ProtoDict_ToDict demo_form_framework (argv action) = inr action_argv
   ∧ form_classes demo_form_framework !! flow_name action = Some ["path"]
   ∧ form_GetArgs demo_form_framework ["path"] request (fmt_int "v_%s_" 0)
     = inr args
   ∧ (∀ a, a ∈ args → is_Some (action_argv !! a.1.1.1)))
  ∧ ∃ fields,
      RenderFlowForm_Layout demo_form_framework request stored_flows
      = inr (mkFlowForm (flow_name action) 0 fields)
      ∧ Forall2 (λ '(desc, field, _, default_) f,
                   ∃ v, action_argv !! desc = Some v
                        ∧ f = (desc, field, v, default_)) args fields.
Proof.
  intros request action action_argv args.
  assert (REQ_get request "rule_id" = Some "1") as H1
    by (vm_compute; reflexivity).
  assert (py_int "1" = inr 1) as H2 by (vm_compute; reflexivity).
  assert (request_action_id request = inr 0) as H3
    by (vm_compute; reflexivity).
  assert (RULES stored_flows = Some [rule_A; rule_D]) as H4 by reflexivity.
  assert (list_getitem [rule_A; rule_D] 1 = inr rule_D) as H5
    by (vm_compute; reflexivity).
  assert (list_getitem (actions rule_D) 0 = inr action) as H6
    by (vm_compute; reflexivity).
  assert (flow_name action
          = default "ListDirectory" (REQ_get request "flow")) as H7
    by (vm_compute; reflexivity).
  assert (ProtoDict_ToDict demo_form_framework (argv action)
          = inr action_argv) as H8 by reflexivity.
  assert (form_classes demo_form_framework !! flow_name action
          = Some ["path"]) as H9 by (vm_compute; reflexivity).
  assert (form_GetArgs demo_form_framework ["path"] request
            (fmt_int "v_%s_" 0) = inr args) as H10
    by (vm_compute; reflexivity).
  assert (∀ a, a ∈ args → is_Some (action_argv !! a.1.1.1)) as H11.
  { intros a ->%list_elem_of_singleton. by exists "/tmp". }
  split; [repeat split; assumption|].
  exact (RenderFlowForm_stored_values demo_form_framework request
           stored_flows "1" 1 0 _ rule_D action action_argv ["path"] args
           H1 H2 H3 H4 H5 H6 H7 H8 H9 H10 H11).
Defined.

Lemma RenderFlowForm_missing_value_witness :
  let request := flow_form_request "1" "1" "ListDirectory" in
  let action : ForemanRuleAction (list (string * string)) :=
    mkAction "ListDirectory" [] in
  let action_argv : gmap string string := ∅ in
  let args := [("path", "v_path_1", "", "")] in
  (REQ_get request "rule_id" = Some "1"
   ∧ py_int "1" = inr 1
   ∧ request_action_id request = inr 1
   ∧ RULES stored_flows = Some [rule_A; rule_D]
   ∧ list_getitem [rule_A; rule_D] 1 = inr rule_D
   ∧ list_getitem (actions rule_D) 1 = inr action
   ∧ flow_name action = default "ListDirectory" (REQ_get request "flow")
   ∧ ProtoDict_ToDict demo_form_framework (argv action) = inr action_argv
   ∧ form_classes demo_form_framework !! flow_name action = Some ["path"]
   ∧ form_GetArgs demo_form_framework ["path"] request (fmt_int "v_%s_" 1)
     = inr args
   ∧ ("path", "v_path_1", "", "") ∈ args
   ∧ action_argv !! "path" = None)
  ∧ ∃ desc,
      RenderFlowForm_Layout demo_form_framework request stored_flows
      = inl (Std (KeyError desc))
      ∧ action_argv !! desc = None.
Proof.
  intros request action action_argv args.
  assert (REQ_get request "rule_id" = Some "1") as H1
    by (vm_compute; reflexivity).
  assert (py_int "1" = inr 1) as H2 by (vm_compute; reflexivity).
  assert (request_action_id request = inr 1) as H3
    by (vm_compute; reflexivity).
  assert (RULES stored_flows = Some [rule_A; rule_D]) as H4 by reflexivity.
  assert (list_getitem [rule_A; rule_D] 1 = inr rule_D) as H5
    by (vm_compute; reflexivity).
  assert (list_getitem (actions rule_D) 1 = inr action) as H6
    by (vm_compute; reflexivity).
  assert (flow_name action
          = default "ListDirectory" (REQ_get request "flow")) as H7
    by (vm_compute; reflexivity).
  assert (ProtoDict_ToDict demo_form_framework (argv action)
          = inr action_argv) as H8 by reflexivity.
  assert (form_classes demo_form_framework !! flow_name action
          = Some ["path"]) as H9 by (vm_compute; reflexivity).
  assert (form_GetArgs demo_form_framework ["path"] request
            (fmt_int "v_%s_" 1) = inr args) as H10
    by (vm_compute; reflexivity).
  assert (("path", "v_path_1", "", "") ∈ args) as H11 by constructor.
  assert (action_argv !! "path" = None) as H12 by reflexivity.
  split; [repeat split; assumption|].
  exact (RenderFlowForm_missing_value demo_form_framework request
           stored_flows "1" 1 1 _ rule_D action action_argv ["path"] args
           ("path", "v_path_1", "", "")
           H1 H2 H3 H4 H5 H6 H7 H8 H9 H10 H11 H12).
Defined.

Lemma RenderFlowForm_requested_flow_witness :
  let request := flow_form_request "1" "0" "Interrogate" in
  (REQ_get request "rule_id" = Some "1"
   ∧ py_int "1" = inr 1
   ∧ request_action_id request = inr 0
   ∧ (RULES stored_flows = None
      ∨ (∃ rules rule action,
           RULES stored_flows = Some rules
           ∧ list_getitem rules 1 = inr rule
           ∧ list_getitem (actions rule) 0 = inr action
           ∧ flow_name action
             ≠ default "ListDirectory" (REQ_get request "flow")))
   ∧ form_classes demo_form_framework
       !! default "ListDirectory" (REQ_get request "flow") = Some []
   ∧ form_GetArgs demo_form_framework [] request (fmt_int "v_%s_" 0)
     = inr [])
  ∧ RenderFlowForm_Layout demo_form_framework request stored_flows
    = inr (mkFlowForm (default "ListDirectory" (REQ_get request "flow")) 0 []).
Proof.
  intros request.
  assert (REQ_get request "rule_id" = Some "1") as H1
    by (vm_compute; reflexivity).
  assert (py_int "1" = inr 1) as H2 by (vm_compute; reflexivity).
  assert (request_action_id request = inr 0) as H3
    by (vm_compute; reflexivity).
  assert (RULES stored_flows = None
          ∨ (∃ rules rule action,
               RULES stored_flows = Some rules
               ∧ list_getitem rules 1 = inr rule
               ∧ list_getitem (actions rule) 0 = inr action
               ∧ flow_name action
                 ≠ default "ListDirectory" (REQ_get request "flow"))) as H4.
  { right. exists [rule_A; rule_D], rule_D,
      (mkAction "ListDirectory" [("path", "/tmp")]).
    split; [reflexivity|]. split; [vm_compute; reflexivity|].
    split; [vm_compute; reflexivity|]. vm_compute. discriminate. }
  assert (form_classes demo_form_framework
            !! default "ListDirectory" (REQ_get request "flow") = Some [])
    as H5 by (vm_compute; reflexivity).
  assert (form_GetArgs demo_form_framework [] request (fmt_int "v_%s_" 0)
          = inr []) as H6 by reflexivity.
  split; [repeat split; assumption|].
  exact (RenderFlowForm_requested_flow demo_form_framework request
           stored_flows "1" 1 0 [] [] H1 H2 H3 H4 H5 H6).
Defined.

Example RenderFlowForm_runs :
  RenderFlowForm_Layout demo_form_framework
    (flow_form_request "1" "0" "ListDirectory") stored_flows
  = inr (mkFlowForm "ListDirectory" 0 [("path", "v_path_0", "/tmp", "")])
  ∧ RenderFlowForm_Layout demo_form_framework
      (flow_form_request "-1" "0" "ListDirectory") stored_flows
    = inr (mkFlowForm "ListDirectory" 0 [("path", "v_path_0", "/tmp", "")])
  ∧ RenderFlowForm_Layout demo_form_framework
      (flow_form_request "0" "3" "ListDirectory") stored_flows
    = inr (mkFlowForm "ListDirectory" 3 []).
Proof. vm_compute. done. Qed.
